(** * packageCanBeDownloaded: a Datadog check for the Jenkins packages

    A shallow embedding of [checks.d/packageCanBeDownloaded.py] and the
    properties of its three parts: the version resolver
    ([build_tree], [get_latest_weekly_version], [get_latest_stable_version]),
    the endpoint table ([create_endpoints]) and the prober ([is_exist]),
    glued together by [check].

    Conventions of the embedding.
    - A Python [str] is a [string]; each [ascii] is the code point of one
      character, so the strings covered are those over U+0000..U+00FF.
    - A Python [int] is a [Z].
    - [None] where a string may occur is [option string].
    - A method of the check object is a function from the object and the
      world ([state]) to a result or a raised exception, and a new state. *)

From Stdlib Require Import ZArith List String Ascii Bool Lia.
From Stdlib Require Import Permutation Sorted DecimalString.
From stdpp Require Import base gmap strings.

Import ListNotations.
Local Open Scope string_scope.
Local Open Scope Z_scope.

(** ** Python's string built-ins used by the check *)

Module Py.

Definition code (c : ascii) : N := N_of_ascii c.

(** [c] is one of [0-9]. *)
Definition is_decimal (c : ascii) : bool :=
  ((48 <=? code c) && (code c <=? 57))%N.

Definition decimal_value (c : ascii) : Z := Z.of_N (code c) - 48.

(** A character for which [str.isdigit] holds: below U+0100 these are the
    decimal digits and the superscripts two, three and one. *)
Definition isdigit_char (c : ascii) : bool :=
  is_decimal c
  || (code c =? 178)%N || (code c =? 179)%N || (code c =? 185)%N.

Fixpoint all_chars (p : ascii -> bool) (s : string) : bool :=
  match s with
  | EmptyString => true
  | String c r => p c && all_chars p r
  end.

(** [s.isdigit()]: at least one character, and all of them digits. *)
Definition isdigit (s : string) : bool :=
  match s with
  | EmptyString => false
  | String _ _ => all_chars isdigit_char s
  end.

(** [s.count(c)] for a one-character [c]. *)
Fixpoint count (c : ascii) (s : string) : nat :=
  match s with
  | EmptyString => O
  | String d r => if Ascii.eqb d c then S (count c r) else count c r
  end.

(** [s.split(c)] for a one-character separator [c]. *)
Fixpoint split (c : ascii) (s : string) : list string :=
  match s with
  | EmptyString => [EmptyString]
  | String d r =>
      if Ascii.eqb d c then EmptyString :: split c r
      else match split c r with
           | h :: t => String d h :: t
           | [] => [String d EmptyString]
           end
  end.

(** The white space [int] skips on both sides of the literal: the code
    points below 256 for which [str.isspace] holds. *)
Definition is_int_space (c : ascii) : bool :=
  ((9 <=? code c) && (code c <=? 13)
   || (28 <=? code c) && (code c <=? 32)
   || (code c =? 133) || (code c =? 160))%N.

Fixpoint lstrip (s : string) : string :=
  match s with
  | EmptyString => EmptyString
  | String c r => if is_int_space c then lstrip r else s
  end.

(** The greatest number of digits [int] reads: the default of
    [sys.set_int_max_str_digits], in force from CPython 3.8.14 on. *)
Definition max_str_digits : Z := 4300.

(** The digits of an [int] literal in base ten: decimal digits, a single
    underscore allowed between two of them, then only white space; the
    digits, leading zeros included and underscores not, are at most
    [max_str_digits]. [us] records that the previous character was an
    underscore and [digits] counts the digits read. *)
Fixpoint int_digits (us : bool) (digits acc : Z) (s : string) : option Z :=
  match s with
  | EmptyString =>
      if us then None
      else if digits <=? max_str_digits then Some acc else None
  | String c r =>
      if is_decimal c
      then int_digits false (digits + 1) (10 * acc + decimal_value c) r
      else if Ascii.eqb c "_"
           then (if us then None else int_digits true digits acc r)
           else if us then None
                else if all_chars is_int_space s
                     then (if digits <=? max_str_digits
                           then Some acc else None)
                     else None
  end.

Definition int_unsigned (s : string) : option Z :=
  match s with
  | EmptyString => None
  | String c _ => if is_decimal c then int_digits false 0 0 s else None
  end.

(** [int(s)] in base ten; [None] stands for [ValueError]. *)
Definition int (s : string) : option Z :=
  match lstrip s with
  | String "+" r => int_unsigned r
  | String "-" r => option_map Z.opp (int_unsigned r)
  | t => int_unsigned t
  end.

(** [str(n)] for an [int]. *)
Definition str_of_int (n : Z) : string :=
  NilZero.string_of_int (Z.to_int n).

(** How an f-string renders a value that is a string or [None]. *)
Definition fmt (v : option string) : string :=
  match v with
  | Some s => s
  | None => "None"
  end.

End Py.

(** ** Results and exceptions *)

(** The exceptions the check can meet. [HTTPError] is a subclass of
    [URLError] in [urllib.error]. *)
Inductive exn : Type :=
| HTTPError (code : Z) (msg : string)
| URLError (reason : string)
| ParseError
| AttributeError
| KeyError
| ValueError
| IndexError.

Definition is_HTTPError (e : exn) : bool :=
  match e with HTTPError _ _ => true | _ => false end.

Definition is_URLError (e : exn) : bool :=
  match e with HTTPError _ _ | URLError _ => true | _ => false end.

(** [err.code] of an [HTTPError]. *)
Definition exn_code (e : exn) : Z :=
  match e with HTTPError c _ => c | _ => 0 end.

(** [str(err)], as an f-string renders the exception. *)
Definition str_exn (e : exn) : string :=
  match e with
  | HTTPError c m => "HTTP Error " ++ Py.str_of_int c ++ ": " ++ m
  | URLError r => "<urlopen error " ++ r ++ ">"
  | ParseError => "ParseError"
  | AttributeError => "AttributeError"
  | KeyError => "KeyError"
  | ValueError => "ValueError"
  | IndexError => "list index out of range"
  end.

Inductive result (A : Type) : Type :=
| Ok (a : A)
| Raise (e : exn).
Arguments Ok {A} a.
Arguments Raise {A} e.

Definition rbind {A B : Type} (r : result A) (k : A -> result B) : result B :=
  match r with
  | Ok a => k a
  | Raise e => Raise e
  end.

Declare Scope result_scope.
Delimit Scope result_scope with res.
Notation "'let?' x ':=' r 'in' k" := (rbind r (fun x => k))
  (at level 10, x name, r at level 100, k at level 200) : result_scope.

Definition of_option {A : Type} (e : exn) (o : option A) : result A :=
  match o with
  | Some a => Ok a
  | None => Raise e
  end.

Fixpoint map_result {A B : Type} (f : A -> result B) (l : list A)
  : result (list B) :=
  match l with
  | [] => Ok []
  | x :: r =>
      (let? y := f x in
       let? ys := map_result f r in
       Ok (y :: ys))%res
  end.

(** ** The version key and the sort *)

(** [a < b] on two lists of integers, as Python compares lists: at the first
    position where they differ the elements decide, and a proper prefix is
    smaller. *)
Fixpoint list_lt (a b : list Z) : bool :=
  match a, b with
  | [], [] => false
  | [], _ :: _ => true
  | _ :: _, [] => false
  | x :: a', y :: b' => if x =? y then list_lt a' b' else x <? y
  end.

(** The nested function [as_version] of [get_latest_stable_version]. The
    unpacking of a split that has not three parts is a [ValueError], as is
    an [int] that does not parse. *)
Definition as_version (ele : string) : result (list Z) :=
  match Py.split "." ele with
  | [major; minor; patch] =>
      if negb (Py.isdigit patch) then
        (let? a := of_option ValueError (Py.int major) in
         let? b := of_option ValueError (Py.int minor) in
         Ok [a; b])%res
      else
        (let? a := of_option ValueError (Py.int major) in
         let? b := of_option ValueError (Py.int minor) in
         let? c := of_option ValueError (Py.int patch) in
         Ok [a; b; c])%res
  | _ => Raise ValueError
  end.

Section Sort.

Context {A : Type} (lt : A -> A -> bool).

(** A stable ascending sort that only asks [lt], which is what
    [list.sort] promises: [x], which stood before the elements of [l],
    goes in front of the first element that is not smaller than it. *)
Fixpoint insert_sorted (x : A) (l : list A) : list A :=
  match l with
  | [] => [x]
  | y :: r => if lt y x then y :: insert_sorted x r else x :: l
  end.

Definition sort_stable (l : list A) : list A :=
  fold_right insert_sorted [] l.

(** [reverse=True]: the list is reversed, sorted, and reversed again, which
    keeps elements of equal keys in their original order. *)
Definition sort_reverse (l : list A) : list A :=
  rev (sort_stable (rev l)).

End Sort.

Definition keyed_lt (a b : list Z * string) : bool :=
  list_lt (fst a) (fst b).

(** [l.sort(key=keyf, reverse=True)]: every key is computed first (the first
    failure is raised), then the elements are ordered by their keys. *)
Definition sort_key_reverse (keyf : string -> result (list Z))
  (l : list string) : result (list string) :=
  (let? keyed := map_result (fun s => let? k := keyf s in Ok (k, s)) l in
   Ok (map snd (sort_reverse keyed_lt keyed)))%res.

(** The list comprehension
    [[version.text for version in versions if version.text.count('.') == 2]]
    over the texts of the elements; a text that is [None] has no [count]. *)
Fixpoint stable_filter (texts : list (option string)) : result (list string) :=
  match texts with
  | [] => Ok []
  | None :: _ => Raise AttributeError
  | Some t :: r =>
      if Nat.eqb (Py.count "." t) 2 then
        match stable_filter r with
        | Ok rest => Ok (t :: rest)
        | Raise e => Raise e
        end
      else stable_filter r
  end.

(** ** The metadata document *)

(** An [xml.etree.ElementTree.Element]: its tag, its text and its
    children. *)
#[warnings="-register-all"]
Inductive Element : Type :=
| Elem (tag : string) (text : option string) (children : list Element).

Definition tag (e : Element) : string :=
  match e with Elem t _ _ => t end.
Definition text (e : Element) : option string :=
  match e with Elem _ t _ => t end.
Definition children (e : Element) : list Element :=
  match e with Elem _ _ c => c end.

Definition children_tagged (t : string) (e : Element) : list Element :=
  List.filter (fun c => String.eqb (tag c) t) (children e).

(** [e.findall(path)] for a path of tag names separated by [/]: one step per
    name, each step taking the children with that tag, in document order. *)
Definition findall (path : string) (e : Element) : list Element :=
  fold_left (fun found t => flat_map (children_tagged t) found)
            (Py.split "/" path) [e].

(** [e.find(path)]: the first match, or [None]. *)
Definition find (path : string) (e : Element) : option Element :=
  hd_error (findall path e).

(** The truth value of an element is that of its list of children. *)
Definition element_bool (e : Element) : bool :=
  match children e with
  | [] => false
  | _ :: _ => true
  end.

(** [not self.root] *)
Definition not_root (r : option Element) : bool :=
  match r with
  | None => true
  | Some e => negb (element_bool e)
  end.

(** ** The check object and the world *)

(** What a run leaves behind, newest first: each [urlopen], each
    [self.warning], each [print] and each [self.gauge]. *)
Inductive event : Type :=
| Urlopen (url : string)
| Warning (msg : string)
| Print (msg : string)
| Gauge (metric : string) (value : Z) (tags : list string).

(** The instance attribute [self.root] (the class gives it [None]) and the
    events so far. *)
Record state : Type := mkState {
  root : option Element;
  log : list event
}.

(** What [urlopen] meets: a response with its status code and its body, the
    body being a well-formed document or not; or an exception. *)
Inductive reply : Type :=
| Opened (code : Z) (body : option Element)
| Failed (e : exn).

Definition is_urlopen (ev : event) : bool :=
  match ev with Urlopen _ => true | _ => false end.

(** The number of calls of [urlopen] in a log. *)
Definition opens (l : list event) : nat :=
  List.length (List.filter is_urlopen l).

Definition gauges (l : list event) : list event :=
  List.filter (fun ev => match ev with Gauge _ _ _ => true | _ => false end) l.

Definition M (A : Type) : Type := state -> result A * state.

Definition ret {A : Type} (a : A) : M A := fun s => (Ok a, s).

Definition raise {A : Type} (e : exn) : M A := fun s => (Raise e, s).

Definition bind {A B : Type} (m : M A) (k : A -> M B) : M B :=
  fun s =>
    match m s with
    | (Ok a, s') => k a s'
    | (Raise e, s') => (Raise e, s')
    end.

(** [try: m  except E as err: h err], where [handles] tells the exceptions
    of class [E]. *)
Definition try_except {A : Type} (m : M A) (handles : exn -> bool)
  (h : exn -> M A) : M A :=
  fun s =>
    match m s with
    | (Ok a, s') => (Ok a, s')
    | (Raise e, s') => if handles e then h e s' else (Raise e, s')
    end.

Definition lift {A : Type} (r : result A) : M A := fun s => (r, s).

Declare Scope check_scope.
Delimit Scope check_scope with chk.
Notation "'let!' x ':=' m 'in' k" := (bind m (fun x => k))
  (at level 10, x name, m at level 100, k at level 200) : check_scope.
Local Open Scope check_scope.

Definition emit (ev : event) : M unit :=
  fun s => (Ok tt, mkState (root s) (ev :: log s)).

Definition warning (msg : string) : M unit := emit (Warning msg).
Definition print (msg : string) : M unit := emit (Print msg).
Definition gauge (metric : string) (value : Z) (tags : list string) : M unit :=
  emit (Gauge metric value tags).

Definition get_root : M (option Element) := fun s => (Ok (root s), s).
Definition set_root (r : option Element) : M unit :=
  fun s => (Ok tt, mkState r (log s)).

Definition metadata_url : string :=
  "https://repo.jenkins-ci.org/releases/org/jenkins-ci/main/jenkins-war/maven-metadata.xml".

Definition default_hostname : string := "get.jenkins.io".

Section Check.

(** The network: what the [n]-th call of [urlopen] (counting from zero)
    meets at a URL. *)
Variable net : nat -> string -> reply.

Definition urlopen (url : string) : M (Z * option Element) :=
  fun s =>
    let s' := mkState (root s) (Urlopen url :: log s) in
    match net (opens (log s)) url with
    | Opened c b => (Ok (c, b), s')
    | Failed e => (Raise e, s')
    end.

(** [ET.parse(response).getroot()] *)
Definition ET_parse (response : Z * option Element) : M Element :=
  match snd response with
  | Some e => ret e
  | None => raise ParseError
  end.

Definition is_exist (distribution url : string) : M Z :=
  try_except
    (let! response := urlopen url in
     let return_code := fst response in
     let! _ := (if negb (return_code =? 200)
                then print ("return code should be 200 but is "
                            ++ Py.str_of_int return_code)
                else ret tt) in
     ret 1)
    is_HTTPError
    (fun err =>
       let! _ := (if exn_code err =? 404
                  then print (distribution ++ " package not found on "
                              ++ url)
                  else print ("Something went wrong with url " ++ url
                              ++ " for " ++ distribution ++ " package: "
                              ++ str_exn err)) in
       ret 0).

Definition build_tree (metadataUrl : string) : M (option Element) :=
  try_except
    (let! response := urlopen metadataUrl in
     let! r := ET_parse response in
     ret (Some r))
    is_URLError
    (fun err =>
       let! _ := warning ("Error when building tree from metadata url: "
                          ++ str_exn err) in
       ret None).

(** The two lines that open both lookups:
    [if not self.root: self.root = self.build_tree()]. *)
Definition load_root : M unit :=
  let! r := get_root in
  if not_root r
  then (let! t := build_tree metadata_url in set_root t)
  else ret tt.

Definition get_latest_weekly_version : M (option string) :=
  let! _ := load_root in
  let! r := get_root in
  match r with
  | None => raise AttributeError
  | Some e =>
      match find "versioning/latest" e with
      | None => raise AttributeError
      | Some latest => ret (text latest)
      end
  end.

Definition get_latest_stable_version : M string :=
  let! _ := load_root in
  let! r := get_root in
  match r with
  | None => raise AttributeError
  | Some e =>
      let versions := findall "versioning/versions/version" e in
      let! stable_versions := lift (stable_filter (map text versions)) in
      let! sorted := lift (sort_key_reverse as_version stable_versions) in
      match sorted with
      | [] => raise IndexError
      | v :: _ => ret v
      end
  end.

(** The dictionary literal of [create_endpoints]. *)
Definition endpoints_dict (hostname : string)
  (weekly_version : option string) (stable_version : string)
  : gmap string string :=
  let w := Py.fmt weekly_version in
  let s := stable_version in
  list_to_map
    [ ("debian", "https://" ++ hostname ++ "/debian/jenkins_" ++ w ++ "_all.deb");
      ("redhat", "https://" ++ hostname ++ "/redhat/jenkins-" ++ w ++ "-1.1.noarch.rpm");
      ("opensuse", "https://" ++ hostname ++ "/opensuse/jenkins-" ++ w ++ "-1.2.noarch.rpm");
      ("windows", "https://" ++ hostname ++ "/windows/" ++ w ++ "/jenkins.msi");
      ("war", "https://" ++ hostname ++ "/war/" ++ w ++ "/jenkins.war");
      ("debian-stable", "https://" ++ hostname ++ "/debian-stable/jenkins_" ++ s ++ "_all.deb");
      ("redhat-stable", "https://" ++ hostname ++ "/redhat-stable/jenkins-" ++ s ++ "-1.1.noarch.rpm");
      ("windows-stable", "https://" ++ hostname ++ "/windows-stable/" ++ s ++ "/jenkins.msi");
      ("opensuse-stable", "https://" ++ hostname ++ "/opensuse-stable/jenkins-" ++ s ++ "-1.2.noarch.rpm");
      ("war-stable", "https://" ++ hostname ++ "/war-stable/" ++ s ++ "/jenkins.war") ].

Definition create_endpoints (hostname : string) : M (gmap string string) :=
  let! weekly_version := get_latest_weekly_version in
  let! stable_version := get_latest_stable_version in
  ret (endpoints_dict hostname weekly_version stable_version).

(** [check(self, instance)], [instance] being the configuration of the
    check as a dictionary. *)
Definition check (instance : gmap string string) : M unit :=
  let! endpoints := create_endpoints default_hostname in
  let metric := "jenkins.package.available" in
  let! package := lift (of_option KeyError (instance !! "package")) in
  let! _ := warning ("PackageAvailable: " ++ package) in
  let tags := ["package:" ++ package] in
  match endpoints !! package with
  | Some url =>
      let! value := is_exist package url in
      gauge metric value tags
  | None =>
      warning ("PackageCanDownload: Package " ++ package
               ++ " is not supported")
  end.

End Check.

(** ** Notions used to state the properties *)

(** [a <= b] on keys. *)
Definition list_le (a b : list Z) : bool := negb (list_lt b a).

(** [a] may stand before [b] in ascending, and in descending, order. *)
Definition ascending_by {A : Type} (lt : A -> A -> bool) (a b : A) : Prop :=
  lt b a = false.
Definition descending_by {A : Type} (lt : A -> A -> bool) (a b : A) : Prop :=
  lt a b = false.

(** The first of the greatest elements of [m :: l]: the candidate is
    replaced only by a strictly greater element. *)
Fixpoint first_max {A : Type} (lt : A -> A -> bool) (m : A) (l : list A) : A :=
  match l with
  | [] => m
  | x :: r => first_max lt (if lt m x then x else m) r
  end.

(** The order the sort puts on version strings, through their keys. *)
Definition version_lt (u v : string) : bool :=
  match as_version u, as_version v with
  | Ok a, Ok b => list_lt a b
  | _, _ => false
  end.

(** [s] has a key: [as_version s] does not raise. *)
Definition has_key (s : string) : Prop := exists k, as_version s = Ok k.

(** The key function of the sort, paired with the element. *)
Definition with_key (s : string) : result (list Z * string) :=
  (let? k := as_version s in Ok (k, s))%res.

Definition key_of (p : list Z * string) : Prop :=
  as_version (snd p) = Ok (fst p).

(** The number of fetches of the metadata document in a log. *)
Definition fetches (l : list event) : nat :=
  List.length
    (List.filter (fun ev => match ev with
                            | Urlopen u => String.eqb u metadata_url
                            | _ => false
                            end) l).

(** [t] occurs in [s]. *)
Definition contains (s t : string) : Prop :=
  exists pre post, s = pre ++ t ++ post.

(** The state in which a call of [urlopen u] leaves [s]. *)
Definition opened (u : string) (s : state) : state :=
  mkState (root s) (Urlopen u :: log s).

(** One more event in the log. *)
Definition logged (ev : event) (s : state) : state :=
  mkState (root s) (ev :: log s).

(** ** A sample document and a sample network *)

Definition version_element (v : string) : Element :=
  Elem "version" (Some v) [].

(** A [maven-metadata.xml] with the given [latest] and [versions]. *)
Definition metadata_doc (latest : string) (versions : list string)
  : Element :=
  Elem "metadata" None
    [ Elem "groupId" (Some "org.jenkins-ci.main") [];
      Elem "artifactId" (Some "jenkins-war") [];
      Elem "versioning" None
        [ Elem "latest" (Some latest) [];
          Elem "release" (Some latest) [];
          Elem "versions" None (map version_element versions) ] ].

Definition sample_doc : Element :=
  metadata_doc "2.401" ["2.401"; "2.390.1"; "2.390"; "2.389.3"].

(** The metadata URL serves [sample_doc]; the weekly war is there, the
    weekly Debian package answers 204, the stable war is missing and every
    other URL fails with a server error. *)
Definition sample_net (n : nat) (url : string) : reply :=
  if String.eqb url metadata_url then Opened 200 (Some sample_doc)
  else if String.eqb url "https://get.jenkins.io/war/2.401/jenkins.war"
  then Opened 200 None
  else if String.eqb url "https://get.jenkins.io/debian/jenkins_2.401_all.deb"
  then Opened 204 None
  else if String.eqb url "https://get.jenkins.io/war-stable/2.390.1/jenkins.war"
  then Failed (HTTPError 404 "Not Found")
  else Failed (HTTPError 500 "Internal Server Error").

(** A check object as the class creates it, before any event. *)
Definition fresh : state := mkState None [].

(** A list of version strings in descending order of their keys: no element
    is below one that follows it. *)
Definition descending (l : list string) : Prop :=
  StronglySorted (fun u v => version_lt u v = false) l.

(** A component that [int] reads as an integer. *)
Definition numeric (s : string) : bool :=
  match Py.int s with
  | Some _ => true
  | None => false
  end.

(** The shape the description gives a stable version, in its words: exactly
    two separators, a numeric major and a numeric minor component, and a
    patch component that is numeric or not. *)
Definition described_stable_shape (s : string) : bool :=
  match Py.split "." s with
  | [major; minor; _] => numeric major && numeric minor
  | _ => false
  end.

(** The test of the filter in [get_latest_stable_version]. *)
Definition two_dots (s : string) : bool := Nat.eqb (Py.count "." s) 2.

(** The texts of the version entries of a document, as
    [get_latest_stable_version] collects them. *)
Definition version_texts (d : Element) : list (option string) :=
  map text (findall "versioning/versions/version" d).

(** A document without a stable version. *)
Definition weekly_only_doc : Element := metadata_doc "2.401" ["2.400"; "2.401"].

Definition weekly_only_net (n : nat) (url : string) : reply :=
  if String.eqb url metadata_url then Opened 200 (Some weekly_only_doc)
  else Opened 200 None.

(** A network on which nothing is reachable. *)
Definition unreachable_net (n : nat) (url : string) : reply :=
  Failed (URLError "[Errno -2] Name or service not known").

(** The ten package identifiers of the description. *)
Definition supported_packages : gset string :=
  {[ "debian"; "redhat"; "opensuse"; "windows"; "war";
     "debian-stable"; "redhat-stable"; "windows-stable";
     "opensuse-stable"; "war-stable" ]}.

(** A newer document than [sample_doc]. *)
Definition newer_doc : Element :=
  metadata_doc "2.402" ["2.402"; "2.401"; "2.401.1"; "2.390.1"].

(** A network on which the metadata changes after the first call of
    [urlopen], and every package is there. *)
Definition drifting_net (n : nat) (url : string) : reply :=
  if String.eqb url metadata_url
  then (if Nat.eqb n 0 then Opened 200 (Some sample_doc)
        else Opened 200 (Some newer_doc))
  else Opened 200 None.

Definition war_instance : gmap string string := {[ "package" := "war" ]}.
Definition zip_instance : gmap string string := {[ "package" := "zip" ]}.

(** A non-empty string of the decimal digits [0-9], not longer than [int]
    reads. *)
Definition decimal (s : string) : bool :=
  match s with
  | EmptyString => false
  | String _ _ =>
      Py.all_chars Py.is_decimal s
      && (Z.of_nat (String.length s) <=? Py.max_str_digits)
  end.

(** ** The order of the description *)

(** The integers the description compares, in its words: the major and the
    minor of a version of three components and, when it is numeric, its
    patch. A component that [int] does not read leaves the version without
    such integers. *)
Definition described_parts (s : string) : option (Z * Z * option Z) :=
  match Py.split "." s with
  | [major; minor; patch] =>
      match Py.int major, Py.int minor with
      | Some a, Some b =>
          if Py.isdigit patch
          then option_map (fun c => (a, b, Some c)) (Py.int patch)
          else Some (a, b, None)
      | _, _ => None
      end
  | _ => None
  end.

(** An absent patch stands below every patch. *)
Definition patch_lt (p p' : option Z) : bool :=
  match p, p' with
  | None, Some _ => true
  | Some c, Some c' => c <? c'
  | _, None => false
  end.

(** [(major, minor, patch)] compared as integers: the majors first, then the
    minors, then the patches. *)
Definition triple_lt (x y : Z * Z * option Z) : bool :=
  match x, y with
  | (a, b, p), (a', b', p') =>
      (a <? a') || ((a =? a') && ((b <? b') || ((b =? b') && patch_lt p p')))
  end.

(** [u] is below [v] in the order of the description. *)
Definition described_lt (u v : string) : bool :=
  match described_parts u, described_parts v with
  | Some x, Some y => triple_lt x y
  | _, _ => false
  end.

(** The key of the integers of a version: the patch is left out when it is
    absent. *)
Definition key_of_parts (x : Z * Z * option Z) : list Z :=
  match x with
  | (a, b, Some c) => [a; b; c]
  | (a, b, None) => [a; b]
  end.






(** ** The stand-alone run *)

(** [for x in l: body x] *)
Fixpoint for_each {A : Type} (l : list A) (body : A -> M unit) : M unit :=
  match l with
  | [] => ret tt
  | x :: r => let! _ := body x in for_each r body
  end.

(** The keys of the dictionary literal of [create_endpoints], in the order
    in which the literal inserts them. *)
Definition endpoint_order : list string :=
  [ "debian"; "redhat"; "opensuse"; "windows"; "war";
    "debian-stable"; "redhat-stable"; "windows-stable";
    "opensuse-stable"; "war-stable" ].

(** [endpoints.items()] for the dictionary [create_endpoints] returns: a
    dictionary yields its items in the order of insertion. *)
Definition endpoints_items (endpoints : gmap string string)
  : list (string * string) :=
  omap (fun k => option_map (fun url => (k, url)) (endpoints !! k))
       endpoint_order.

(** The body of the loop of the stand-alone run: an endpoint is probed and
    the outcome printed. [not is_exist(...)] holds when the prober returns
    0. *)
Definition report (net : nat -> string -> reply) (item : string * string)
  : M unit :=
  let package := fst item in
  let message := snd item in
  let! value := is_exist net package message in
  if value =? 0
  then print ("Latest version for package " ++ package
              ++ " not available from " ++ message)
  else print ("Latest version for package " ++ package
              ++ " available from " ++ message).

(** The block under [if __name__ == "__main__"]: a new check object, the two
    versions printed, then every endpoint probed. *)
Definition main (net : nat -> string -> reply) : M unit :=
  let! _ := set_root None in
  let! weekly_version := get_latest_weekly_version net in
  let! stable_version := get_latest_stable_version net in
  let! _ := print ("Latest weekly version: " ++ Py.fmt weekly_version) in
  let! _ := print ("Latest stable version: " ++ stable_version) in
  let! endpoints := create_endpoints net default_hostname in
  for_each (endpoints_items endpoints) (report net).

(** ** Further notions used to state the properties *)

(** The URLs opened in a log, newest first. *)
Definition opened_urls (l : list event) : list string :=
  omap (fun ev => match ev with Urlopen u => Some u | _ => None end) l.

(** The warnings in a log. *)
Definition warnings (l : list event) : list event :=
  List.filter (fun ev => match ev with Warning _ => true | _ => false end) l.

(** [sep.join(l)] *)
Fixpoint join (sep : string) (l : list string) : string :=
  match l with
  | [] => ""
  | [x] => x
  | x :: r => x ++ sep ++ join sep r
  end.

(** A version written as decimal numbers separated by dots, each of at most
    4300 digits, the length up to which [int] reads a literal. *)
Definition plain_version (s : string) : Prop :=
  Forall (fun part => decimal part = true) (Py.split "." s).

(** What [urlopen] meets is a response or an [HTTPError]. *)
Definition answered (r : reply) : Prop :=
  match r with
  | Opened _ _ => True
  | Failed err => is_HTTPError err = true
  end.

(** A document whose [latest] element is empty. *)
Definition no_latest_text_doc : Element :=
  Elem "metadata" None
    [ Elem "versioning" None
        [ Elem "latest" None [];
          Elem "versions" None [version_element "2.390.1"] ] ].

Definition no_latest_text_net (n : nat) (url : string) : reply :=
  if String.eqb url metadata_url then Opened 200 (Some no_latest_text_doc)
  else Opened 200 None.

(** A document without children, and a network that serves it. *)
Definition childless_doc : Element := Elem "metadata" None [].

Definition childless_net (n : nat) (url : string) : reply :=
  if String.eqb url metadata_url then Opened 200 (Some childless_doc)
  else Opened 200 None.

(** A network on which the metadata is there but no package host answers. *)
Definition probe_down_net (n : nat) (url : string) : reply :=
  if String.eqb url metadata_url then Opened 200 (Some sample_doc)
  else Failed (URLError "[Errno 111] Connection refused").

Definition empty_instance : gmap string string := ∅.

(** * The built-ins on examples *)

Example int_examples :
  map Py.int
    ["2"; " 2"; "2 "; "+2"; "-2"; "1_0"; "0012"; "-0";
     ""; "+"; "_1"; "1_"; "1__0"; "0x1"; "+ 1"; "--1"; "1 2"; "rc1"; "1-rc"]
  = [Some 2; Some 2; Some 2; Some 2; Some (-2); Some 10; Some 12; Some 0;
     None; None; None; None; None; None; None; None; None; None; None].
Proof. reflexivity. Qed.

Example isdigit_examples :
  map Py.isdigit ["1"; "390"; ""; "rc1"; "1-rc"; " 1"; "+1"]
  = [true; true; false; false; false; false; false].
Proof. reflexivity. Qed.

Example split_examples :
  map (Py.split ".") ["2.390.1"; "2.401"; ""; ".."; "2.319.rc.1"]
  = [["2"; "390"; "1"]; ["2"; "401"]; [""]; [""; ""; ""];
     ["2"; "319"; "rc"; "1"]].
Proof. reflexivity. Qed.

Example count_examples :
  map (Py.count ".") ["2.390.1"; "2.401"; ""; ".."; "2.319.rc.1"]
  = [2; 1; 0; 2; 3]%nat.
Proof. reflexivity. Qed.

Example str_of_int_examples :
  map Py.str_of_int [200; 404; 0; -5] = ["200"; "404"; "0"; "-5"].
Proof. reflexivity. Qed.

Example list_lt_examples :
  map (fun p => list_lt (fst p) (snd p))
    [([2; 319], [2; 319; 3]); ([2; 319; 3], [2; 319]); ([2; 319], [2; 319]);
     ([2; 319; 3], [2; 320; 1]); ([2; 319; 0], [2; 319])]
  = [true; false; false; true; false].
Proof. reflexivity. Qed.

Example as_version_examples :
  map as_version ["2.390.1"; "2.319.rc1"; "2.401"; "a.b.1"; "1.2.3.4"]
  = [Ok [2; 390; 1]; Ok [2; 319]; Raise ValueError; Raise ValueError;
     Raise ValueError].
Proof. reflexivity. Qed.

(** Elements of equal keys keep their order. *)
Example sort_examples :
  sort_key_reverse as_version
    ["2.319.rc1"; "2.320.1"; "2.319.3"; "2.319.rc2"; "2.319.0"]
  = Ok ["2.320.1"; "2.319.3"; "2.319.0"; "2.319.rc1"; "2.319.rc2"].
Proof. reflexivity. Qed.

Example find_examples :
  option_map text (find "versioning/latest" sample_doc) = Some (Some "2.401")
  /\ map text (findall "versioning/versions/version" sample_doc)
     = [Some "2.401"; Some "2.390.1"; Some "2.390"; Some "2.389.3"]
  /\ find "versioning/latest" (Elem "metadata" None []) = None.
Proof. repeat split. Qed.

(** A run on the sample network, oldest event last. *)
Example check_war_example :
  check sample_net war_instance fresh
  = (Ok tt,
     mkState (Some sample_doc)
       [Gauge "jenkins.package.available" 1 ["package:war"];
        Urlopen "https://get.jenkins.io/war/2.401/jenkins.war";
        Warning "PackageAvailable: war";
        Urlopen metadata_url]).
Proof. reflexivity. Qed.

(** [int] reads 4300 digits and no more. *)
Example int_digit_limit :
  let ones := fix ones (n : nat) : string :=
                match n with
                | O => ""
                | S m => String "1" (ones m)
                end in
  (exists n, Py.int (ones 4300%nat) = Some n)
  /\ Py.int (ones 4301%nat) = None
  /\ as_version (ones 4301%nat ++ ".2.3") = Raise ValueError.
Proof.
  cbv zeta. split; [|split]; [eexists|..]; vm_compute; reflexivity.
Qed.

(** A digit for [isdigit] that [int] does not read: the superscript two. *)
Example superscript_two :
  let two := String "178"%char "" in
  Py.isdigit two = true /\ Py.int two = None
  /\ as_version ("2.3." ++ two) = Raise ValueError.
Proof. repeat split. Qed.

(** * Properties *)

(** ** Splitting and counting *)

Lemma split_length (c : ascii) (s : string) :
  List.length (Py.split c s) = S (Py.count c s).
Proof.
  induction s as [|d r IH]; simpl; [reflexivity|].
  destruct (Ascii.eqb d c); simpl.
  - now rewrite IH.
  - destruct (Py.split c r) as [|h t]; simpl in *; [discriminate IH | exact IH].
Qed.

Lemma split_three_count (s major minor patch : string) :
  Py.split "." s = [major; minor; patch] -> Py.count "." s = 2%nat.
Proof.
  intros H. pose proof (split_length "." s) as L.
  rewrite H in L. simpl in L. lia.
Qed.

Lemma count_two_split (s : string) :
  Py.count "." s = 2%nat ->
  exists major minor patch, Py.split "." s = [major; minor; patch].
Proof.
  intros H. pose proof (split_length "." s) as L. rewrite H in L.
  destruct (Py.split "." s) as [|a [|b [|c [|d t]]]]; simpl in L; try lia.
  now exists a, b, c.
Qed.

(** ** The order on keys *)

Lemma list_lt_irrefl (a : list Z) : list_lt a a = false.
Proof.
  induction a as [|x a IH]; simpl; [reflexivity|].
  now rewrite Z.eqb_refl.
Qed.

Lemma list_lt_asym (a b : list Z) :
  list_lt a b = true -> list_lt b a = false.
Proof.
  revert b. induction a as [|x a IH]; intros [|y b]; simpl; try easy.
  destruct (Z.eqb_spec x y) as [->|Hne].
  - rewrite Z.eqb_refl. apply IH.
  - destruct (Z.eqb_spec y x) as [E|_]; [congruence|]. lia.
Qed.

Lemma list_lt_trans (a b c : list Z) :
  list_lt a b = true -> list_lt b c = true -> list_lt a c = true.
Proof.
  revert b c. induction a as [|x a IH]; intros [|y b] [|z c]; simpl; try easy.
  destruct (Z.eqb_spec x y) as [->|Hxy].
  - destruct (Z.eqb_spec y z) as [->|Hyz]; [apply IH | easy].
  - destruct (Z.eqb_spec y z) as [->|Hyz].
    + destruct (Z.eqb_spec x z); [congruence | easy].
    + destruct (Z.eqb_spec x z) as [->|Hxz]; lia.
Qed.

(** The order is total: of two keys that are not below one another, neither
    is below a third unless the other is. *)
Lemma list_lt_total (a b : list Z) :
  list_lt a b = false -> list_lt b a = false -> a = b.
Proof.
  revert b. induction a as [|x a IH]; intros [|y b]; simpl; try easy.
  destruct (Z.eqb_spec x y) as [->|Hxy].
  - rewrite Z.eqb_refl. intros H1 H2. f_equal. now apply IH.
  - destruct (Z.eqb_spec y x) as [E|_]; [congruence|]. lia.
Qed.

Lemma list_le_trans (a b c : list Z) :
  list_le a b = true -> list_le b c = true -> list_le a c = true.
Proof.
  unfold list_le. rewrite !negb_true_iff. intros Hba Hcb.
  destruct (list_lt c a) eqn:Hca; [|reflexivity].
  destruct (list_lt a b) eqn:Hab.
  - now rewrite (list_lt_trans c a b Hca Hab) in Hcb.
  - pose proof (list_lt_total a b Hab Hba) as ->. congruence.
Qed.





(** ** The stable sort *)

Section SortFacts.

Context {A : Type} (lt : A -> A -> bool).

Hypothesis lt_asym : forall a b, lt a b = true -> lt b a = false.
Hypothesis lt_trans : forall a b c,
    lt a b = true -> lt b c = true -> lt a c = true.
Hypothesis le_trans : forall a b c,
    lt b a = false -> lt c b = false -> lt c a = false.

Lemma lt_le_trans (a b c : A) :
  lt a b = true -> lt c b = false -> lt a c = true.
Proof using le_trans.
  intros Hab Hcb. destruct (lt a c) eqn:Hac; [reflexivity|].
  now rewrite (le_trans b c a Hcb Hac) in Hab.
Qed.

Lemma le_lt_trans (a b c : A) :
  lt b a = false -> lt b c = true -> lt a c = true.
Proof using le_trans.
  intros Hba Hbc. destruct (lt a c) eqn:Hac; [reflexivity|].
  now rewrite (le_trans c a b Hac Hba) in Hbc.
Qed.

Lemma insert_sorted_perm (x : A) (l : list A) :
  Permutation (insert_sorted lt x l) (x :: l).
Proof.
  induction l as [|y r IH]; simpl; [reflexivity|].
  destruct (lt y x); [|reflexivity].
  rewrite IH. apply perm_swap.
Qed.

Lemma sort_stable_perm (l : list A) : Permutation (sort_stable lt l) l.
Proof.
  induction l as [|x r IH]; simpl; [reflexivity|].
  rewrite insert_sorted_perm. now apply perm_skip.
Qed.

Lemma sort_reverse_perm (l : list A) : Permutation (sort_reverse lt l) l.
Proof.
  unfold sort_reverse.
  rewrite <- Permutation_rev, sort_stable_perm.
  symmetry. apply Permutation_rev.
Qed.

Lemma insert_sorted_sorted (x : A) (l : list A) :
  StronglySorted (ascending_by lt) l -> StronglySorted (ascending_by lt) (insert_sorted lt x l).
Proof using lt_asym le_trans.
  induction 1 as [|y r Hr IH Hy]; simpl.
  - repeat constructor.
  - destruct (lt y x) eqn:E.
    + constructor; [exact IH|].
      apply (Permutation_Forall
               (Permutation_sym (insert_sorted_perm x r))).
      constructor; [apply lt_asym, E | exact Hy].
    + constructor; [now constructor|].
      constructor; [exact E|].
      eapply List.Forall_impl; [|exact Hy].
      intros z Hz. exact (le_trans x y z E Hz).
Qed.

Lemma sort_stable_sorted (l : list A) : StronglySorted (ascending_by lt) (sort_stable lt l).
Proof using lt_asym le_trans.
  induction l as [|x r IH]; simpl; [constructor|].
  now apply insert_sorted_sorted.
Qed.

Lemma StronglySorted_snoc (R : A -> A -> Prop) (l : list A) (x : A) :
  StronglySorted R l -> Forall (fun y => R y x) l ->
  StronglySorted R (l ++ [x])%list.
Proof.
  induction 1 as [|y r Hr IH Hy]; simpl; intros Hx.
  - repeat constructor.
  - inversion Hx as [|? ? Hyx Hrx]; subst.
    constructor; [now apply IH|].
    apply Forall_app. split; [exact Hy | now constructor].
Qed.

Lemma StronglySorted_rev (R : A -> A -> Prop) (l : list A) :
  StronglySorted R l -> StronglySorted (fun a b => R b a) (rev l).
Proof.
  induction 1 as [|y r Hr IH Hy]; simpl; [constructor|].
  apply StronglySorted_snoc; [exact IH|].
  now apply Forall_rev.
Qed.

(** The result of [sort(reverse=True)] is in descending order: no element
    is below one that follows it. *)
Lemma sort_reverse_sorted (l : list A) :
  StronglySorted (descending_by lt) (sort_reverse lt l).
Proof using lt_asym le_trans.
  unfold sort_reverse.
  exact (StronglySorted_rev (ascending_by lt) _ (sort_stable_sorted (rev l))).
Qed.

Lemma last_insert_sorted (x d : A) (l : list A) :
  StronglySorted (ascending_by lt) l -> l <> [] ->
  List.last (insert_sorted lt x l) d
  = if lt (List.last l d) x then x else List.last l d.
Proof using le_trans.
  induction 1 as [|y r Hr IH Hy]; intros Hne; [congruence|].
  destruct r as [|z t].
  - simpl. destruct (lt y x); reflexivity.
  - change (List.last (y :: z :: t) d) with (List.last (z :: t) d).
    change (insert_sorted lt x (y :: z :: t))
      with (if lt y x then y :: insert_sorted lt x (z :: t)
            else x :: y :: z :: t).
    destruct (lt y x) eqn:E.
    + assert (N : insert_sorted lt x (z :: t) <> []).
      { simpl. destruct (lt z x); discriminate. }
      destruct (insert_sorted lt x (z :: t)) as [|i1 it] eqn:I;
        [congruence|].
      change (List.last (y :: i1 :: it) d) with (List.last (i1 :: it) d).
      apply IH. discriminate.
    + change (List.last (x :: y :: z :: t) d) with (List.last (z :: t) d).
      assert (L : ascending_by lt y (List.last (z :: t) d)).
      { rewrite List.Forall_forall in Hy. apply Hy.
        destruct (exists_last (l := z :: t)) as (t' & a & Ht);
          [discriminate|].
        rewrite Ht, last_last. apply in_or_app.
        right. now left. }
      now rewrite (le_trans x y _ E L).
Qed.

Lemma insert_sorted_nonempty (x : A) (l : list A) :
  insert_sorted lt x l <> [].
Proof. destruct l as [|y r]; simpl; [|destruct (lt y x)]; discriminate. Qed.

Lemma last_fold_insert (d : A) (l s : list A) :
  StronglySorted (ascending_by lt) s -> s <> [] ->
  List.last (fold_right (insert_sorted lt) s (rev l)) d
  = first_max lt (List.last s d) l.
Proof using lt_asym le_trans.
  revert s. induction l as [|x r IH]; intros s Hs Hne; [reflexivity|].
  simpl. rewrite fold_right_app. simpl.
  rewrite IH.
  - now rewrite last_insert_sorted.
  - now apply insert_sorted_sorted.
  - apply insert_sorted_nonempty.
Qed.

(** The head of the sorted list is the first of the greatest elements. *)
Lemma sort_reverse_head (m : A) (l : list A) :
  hd_error (sort_reverse lt (m :: l)) = Some (first_max lt m l).
Proof using lt_asym le_trans.
  unfold sort_reverse, sort_stable.
  simpl rev. rewrite fold_right_app. simpl fold_right.
  pose proof (last_fold_insert m l [m]) as L.
  assert (S1 : StronglySorted (ascending_by lt) [m]) by repeat constructor.
  specialize (L S1 ltac:(discriminate)). simpl List.last in L.
  destruct (exists_last (l := fold_right (insert_sorted lt) [m] (rev l)))
    as (t & a & Ht).
  { destruct (rev l) as [|y r]; simpl; [discriminate|].
    apply insert_sorted_nonempty. }
  rewrite Ht in L |- *. rewrite last_last in L. subst a.
  now rewrite rev_app_distr.
Qed.

Lemma first_max_split_gen (l : list A) :
  forall (m : A) (before between : list A),
    Forall (fun y => lt y m = true) before ->
    Forall (fun y => lt m y = false) between ->
    exists pre post,
      (before ++ m :: between ++ l = pre ++ first_max lt m l :: post)%list
      /\ Forall (fun y => lt y (first_max lt m l) = true) pre
      /\ Forall (fun y => lt (first_max lt m l) y = false) post.
Proof using lt_trans le_trans.
  induction l as [|x r IH]; intros m before between Hb Hm.
  - exists before, between. now rewrite app_nil_r.
  - simpl. destruct (lt m x) eqn:E.
    + destruct (IH x (before ++ m :: between)%list []) as (pre & post & H).
      * apply Forall_app. split.
        -- eapply List.Forall_impl; [|exact Hb].
           intros y Hy. exact (lt_trans y m x Hy E).
        -- constructor; [exact E|].
           eapply List.Forall_impl; [|exact Hm].
           intros y Hy. exact (le_lt_trans y m x Hy E).
      * constructor.
      * exists pre, post. rewrite <- (proj1 H).
        split; [|exact (proj2 H)].
        now rewrite <- !app_assoc.
    + destruct (IH m before (between ++ [x])%list Hb) as (pre & post & H).
      * apply Forall_app. split; [exact Hm | now constructor].
      * exists pre, post. rewrite <- (proj1 H).
        split; [|exact (proj2 H)].
        now rewrite <- !app_assoc.
Qed.

Lemma first_max_split (m : A) (l : list A) :
  exists pre post,
    (m :: l = pre ++ first_max lt m l :: post)%list
    /\ Forall (fun y => lt y (first_max lt m l) = true) pre
    /\ Forall (fun y => lt (first_max lt m l) y = false) post.
Proof using lt_trans le_trans.
  exact (first_max_split_gen l m [] [] (List.Forall_nil _) (List.Forall_nil _)).
Qed.

End SortFacts.

(** ** Sorting version strings *)

Lemma keyed_lt_asym (a b : list Z * string) :
  keyed_lt a b = true -> keyed_lt b a = false.
Proof. apply list_lt_asym. Qed.

Lemma keyed_lt_trans (a b c : list Z * string) :
  keyed_lt a b = true -> keyed_lt b c = true -> keyed_lt a c = true.
Proof. apply list_lt_trans. Qed.

Lemma keyed_le_trans (a b c : list Z * string) :
  keyed_lt b a = false -> keyed_lt c b = false -> keyed_lt c a = false.
Proof.
  unfold keyed_lt. intros H1 H2.
  pose proof (list_le_trans (fst a) (fst b) (fst c)) as T.
  unfold list_le in T. rewrite H1, H2 in T.
  specialize (T eq_refl eq_refl). now rewrite negb_true_iff in T.
Qed.

Lemma as_version_raises (s : string) (e : exn) :
  as_version s = Raise e -> e = ValueError.
Proof.
  unfold as_version.
  destruct (Py.split "." s) as [|a [|b [|c [|d t]]]]; try congruence.
  destruct (negb (Py.isdigit c)), (Py.int a), (Py.int b), (Py.int c);
    simpl; congruence.
Qed.

Lemma map_result_with_key (l : list string) (keyed : list (list Z * string)) :
  map_result with_key l = Ok keyed ->
  Forall key_of keyed /\ map snd keyed = l.
Proof.
  revert keyed. induction l as [|s r IH]; simpl; intros keyed H.
  - injection H as <-. split; [constructor | reflexivity].
  - unfold with_key at 1 in H. destruct (as_version s) as [k|e] eqn:K;
      simpl in H; [|discriminate].
    destruct (map_result with_key r) as [kr|e] eqn:R; simpl in H;
      [|discriminate].
    injection H as <-. destruct (IH kr eq_refl) as [F E].
    split; [constructor; [exact K | exact F] | simpl; now rewrite E].
Qed.

Lemma map_result_with_key_total (l : list string) :
  Forall has_key l -> exists keyed, map_result with_key l = Ok keyed.
Proof.
  induction 1 as [|s r [k K] _ [kr R]]; simpl.
  - now exists [].
  - unfold with_key at 1. rewrite K. simpl. rewrite R. simpl.
    now exists ((k, s) :: kr).
Qed.

Lemma map_result_with_key_raises (l : list string) (e : exn) :
  map_result with_key l = Raise e -> e = ValueError.
Proof.
  induction l as [|s r IH]; simpl; [discriminate|].
  unfold with_key at 1. destruct (as_version s) as [k|e'] eqn:K; simpl.
  - destruct (map_result with_key r) as [kr|e'']; simpl; [discriminate|].
    intros H. injection H as <-. now apply IH.
  - intros H. injection H as <-. now apply as_version_raises in K.
Qed.

Lemma key_of_version_lt (p q : list Z * string) :
  key_of p -> key_of q -> version_lt (snd p) (snd q) = keyed_lt p q.
Proof.
  unfold key_of, version_lt, keyed_lt. now intros -> ->.
Qed.

Lemma sorted_keyed_strings (R : bool -> Prop) (l : list (list Z * string)) :
  Forall key_of l ->
  StronglySorted (fun p q => R (keyed_lt p q)) l ->
  StronglySorted (fun u v => R (version_lt u v)) (map snd l).
Proof.
  intros F S. induction S as [|p r Sr IH Hp]; simpl; [constructor|].
  inversion F as [|? ? Kp Kr]; subst.
  constructor; [now apply IH|].
  rewrite List.Forall_forall in Hp, Kr |- *.
  intros v Hv. apply in_map_iff in Hv as (q & <- & Hq).
  rewrite (key_of_version_lt p q Kp (Kr q Hq)). now apply Hp.
Qed.

Lemma Forall_keyed_strings (R : bool -> Prop) (p : list Z * string)
  (l : list (list Z * string)) :
  key_of p -> Forall key_of l ->
  Forall (fun q => R (keyed_lt q p)) l ->
  Forall (fun u => R (version_lt u (snd p))) (map snd l).
Proof.
  intros Kp Kl H. rewrite List.Forall_forall in H, Kl |- *.
  intros v Hv. apply in_map_iff in Hv as (q & <- & Hq).
  rewrite (key_of_version_lt q p (Kl q Hq) Kp). now apply H.
Qed.

Lemma Forall_keyed_strings' (R : bool -> Prop) (p : list Z * string)
  (l : list (list Z * string)) :
  key_of p -> Forall key_of l ->
  Forall (fun q => R (keyed_lt p q)) l ->
  Forall (fun u => R (version_lt (snd p) u)) (map snd l).
Proof.
  intros Kp Kl H. rewrite List.Forall_forall in H, Kl |- *.
  intros v Hv. apply in_map_iff in Hv as (q & <- & Hq).
  rewrite (key_of_version_lt p q Kp (Kl q Hq)). now apply H.
Qed.

(** What [stable_versions.sort(key=as_version, reverse=True)] leaves in the
    list when every element has a key: the same elements, in descending
    order of their keys, the first of the greatest ones at the head. *)
Lemma sort_key_reverse_descending (l : list string) :
  Forall has_key l ->
  exists l',
    sort_key_reverse as_version l = Ok l'
    /\ Permutation l' l
    /\ StronglySorted (fun u v => version_lt u v = false) l'
    /\ match l with
       | [] => l' = []
       | _ :: _ =>
           exists v rest pre post,
             l' = v :: rest
             /\ l = (pre ++ v :: post)%list
             /\ Forall (fun u => version_lt u v = true) pre
             /\ Forall (fun u => version_lt v u = false) post
       end.
Proof.
  intros F. destruct (map_result_with_key_total l F) as [keyed K].
  destruct (map_result_with_key l keyed K) as [KF E].
  unfold sort_key_reverse. fold with_key. rewrite K. simpl.
  eexists. split; [reflexivity|].
  pose proof (sort_reverse_perm keyed_lt keyed) as P.
  assert (KS : Forall key_of (sort_reverse keyed_lt keyed)).
  { exact (Permutation_Forall (Permutation_sym P) KF). }
  split; [|split].
  - rewrite <- E. now apply Permutation_map.
  - apply (sorted_keyed_strings (fun b => b = false)); [exact KS|].
    apply sort_reverse_sorted;
      [exact keyed_lt_asym | exact keyed_le_trans].
  - destruct l as [|s0 r]; destruct keyed as [|p0 kr]; try discriminate.
    + reflexivity.
    + pose proof (sort_reverse_head keyed_lt keyed_lt_asym keyed_le_trans
                    p0 kr) as H.
      destruct (sort_reverse keyed_lt (p0 :: kr)) as [|h t] eqn:S;
        [discriminate|].
      injection H as ->.
      destruct (first_max_split keyed_lt keyed_lt_trans keyed_le_trans
                  p0 kr) as (pre & post & D & Hpre & Hpost).
      assert (Kh : key_of (first_max keyed_lt p0 kr)).
      { now inversion KS. }
      rewrite D in KF. apply Forall_app in KF as [Kpre Kpost].
      inversion Kpost as [|? ? _ Kpost']; subst.
      exists (snd (first_max keyed_lt p0 kr)), (map snd t),
        (map snd pre), (map snd post).
      split; [reflexivity|]. split.
      * rewrite <- E, D, map_app. reflexivity.
      * split.
        -- now apply (Forall_keyed_strings (fun b => b = true)).
        -- now apply (Forall_keyed_strings' (fun b => b = false)).
Qed.

(** A list with an element that has no key is not sorted: the sort raises
    [ValueError]. *)
Lemma sort_key_reverse_raises (l : list string) (e : exn) :
  sort_key_reverse as_version l = Raise e -> e = ValueError.
Proof.
  unfold sort_key_reverse. fold with_key.
  destruct (map_result with_key l) as [keyed|e'] eqn:K; simpl;
    [discriminate|].
  intros H. injection H as <-. now apply map_result_with_key_raises in K.
Qed.

Lemma sort_key_reverse_ok (l l' : list string) :
  sort_key_reverse as_version l = Ok l' -> Forall has_key l.
Proof.
  unfold sort_key_reverse. fold with_key.
  destruct (map_result with_key l) as [keyed|e] eqn:K; [|discriminate].
  intros _. destruct (map_result_with_key l keyed K) as [F <-].
  clear K. induction F as [|p r Kp _ IH]; simpl; constructor;
    [now exists (fst p) | exact IH].
Qed.

(** ** Versions written with decimal digits have a key *)

Lemma int_digits_decimal (s : string) (digits acc : Z) :
  Py.all_chars Py.is_decimal s = true ->
  digits + Z.of_nat (String.length s) <= Py.max_str_digits ->
  exists n, Py.int_digits false digits acc s = Some n.
Proof.
  revert digits acc. induction s as [|c r IH]; intros digits acc.
  - intros _ L. cbn [Py.int_digits String.length] in *.
    destruct (Z.leb_spec digits Py.max_str_digits) as [_|G]; [|lia].
    now exists acc.
  - intros H L. cbn [Py.all_chars] in H.
    apply andb_true_iff in H as [C R]. cbn [Py.int_digits]. rewrite C.
    apply IH; [exact R|]. cbn [String.length] in L. lia.
Qed.

Lemma decimal_all (s : string) :
  decimal s = true ->
  Py.all_chars Py.is_decimal s = true
  /\ Z.of_nat (String.length s) <= Py.max_str_digits.
Proof.
  destruct s as [|c r]; [discriminate|]. unfold decimal.
  intros H. apply andb_true_iff in H as [A L].
  split; [exact A | now apply Z.leb_le].
Qed.

Lemma int_decimal (s : string) :
  decimal s = true -> exists n, Py.int s = Some n.
Proof.
  intros D. destruct (decimal_all s D) as [H L].
  destruct s as [|c r]; [discriminate|].
  pose proof H as H'. cbn [Py.all_chars] in H'.
  apply andb_true_iff in H' as [C _].
  destruct (int_digits_decimal (String c r) 0 0 H) as [n N]; [lia|].
  exists n. rewrite <- N. clear N H L D.
  destruct c as [[] [] [] [] [] [] [] []]; try discriminate C; reflexivity.
Qed.

Lemma decimal_isdigit (s : string) : decimal s = true -> Py.isdigit s = true.
Proof.
  intros D. destruct (decimal_all s D) as [H _].
  destruct s as [|c r]; [discriminate|]. unfold Py.isdigit.
  revert H. generalize (String c r). clear. intros s.
  induction s as [|c r IH]; simpl; [reflexivity|].
  intros H. apply andb_true_iff in H as [C R].
  unfold Py.isdigit_char. rewrite C. simpl. now apply IH.
Qed.

(** A version [major.minor.patch] whose major and minor are written with
    decimal digits, and whose patch is written with decimal digits or is no
    digit string at all, has a key. *)
Lemma decimal_version_has_key (s major minor patch : string) :
  Py.split "." s = [major; minor; patch] ->
  decimal major = true -> decimal minor = true ->
  decimal patch = true \/ Py.isdigit patch = false ->
  has_key s.
Proof.
  intros S A B P.
  destruct (int_decimal major A) as [a Ea].
  destruct (int_decimal minor B) as [b Eb].
  unfold has_key, as_version. rewrite S, Ea, Eb.
  destruct P as [P|P].
  - rewrite (decimal_isdigit patch P).
    destruct (int_decimal patch P) as [c ->]. now eexists.
  - rewrite P. now eexists.
Qed.

(** ** The order of the description *)

(** The key of [as_version] is the key of the integers of the description,
    and the order of the sort is its order. *)
Lemma as_version_described (s : string) :
  as_version s
  = of_option ValueError (option_map key_of_parts (described_parts s)).
Proof.
  unfold as_version, described_parts.
  destruct (Py.split "." s) as [|a [|b [|c [|d t]]]]; try reflexivity.
  destruct (Py.int a), (Py.int b), (Py.isdigit c), (Py.int c); reflexivity.
Qed.

Lemma list_lt_key_of_parts (x y : Z * Z * option Z) :
  list_lt (key_of_parts x) (key_of_parts y) = triple_lt x y.
Proof.
  destruct x as [[a b] [c|]], y as [[a' b'] [c'|]];
    unfold triple_lt, patch_lt, key_of_parts; cbn [list_lt];
    destruct (Z.eqb_spec a a'), (Z.eqb_spec b b'),
      (Z.ltb_spec a a'), (Z.ltb_spec b b');
    cbn; try reflexivity; try lia;
    destruct (Z.eqb_spec c c'), (Z.ltb_spec c c'); cbn; try reflexivity; lia.
Qed.

Lemma version_lt_described (u v : string) :
  version_lt u v = described_lt u v.
Proof.
  unfold version_lt, described_lt. rewrite !as_version_described.
  destruct (described_parts u) as [x|], (described_parts v) as [y|];
    cbn; try reflexivity.
  apply list_lt_key_of_parts.
Qed.




(** ** The key of a stable version and the order of the sort *)






(** ** The filter of stable versions *)

Lemma stable_filter_strings (l : list string) :
  stable_filter (map Some l) = Ok (List.filter two_dots l).
Proof.
  induction l as [|s r IH]; [reflexivity|].
  cbn [map stable_filter List.filter].
  change (Nat.eqb (Py.count "." s) 2) with (two_dots s).
  rewrite IH. now destruct (two_dots s).
Qed.

Lemma stable_filter_ok (texts : list (option string)) (kept : list string) :
  stable_filter texts = Ok kept ->
  exists l, texts = map Some l /\ kept = List.filter two_dots l.
Proof.
  revert kept. induction texts as [|[t|] r IH]; intros kept H.
  - injection H as <-. now exists [].
  - cbn [stable_filter] in H.
    change (Nat.eqb (Py.count "." t) 2) with (two_dots t) in H.
    destruct (stable_filter r) as [rest|e];
      [|destruct (two_dots t); discriminate].
    destruct (IH rest eq_refl) as (l & -> & ->).
    exists (t :: l). split; [reflexivity|].
    cbn [List.filter]. destruct (two_dots t); now injection H as <-.
  - discriminate.
Qed.

Lemma described_shape_two_dots (s : string) :
  described_stable_shape s = true -> two_dots s = true.
Proof.
  unfold described_stable_shape, two_dots.
  destruct (Py.split "." s) as [|a [|b [|c [|d t]]]] eqn:S; try discriminate.
  intros _. now rewrite (split_three_count s a b c S).
Qed.

(** C3, as the code has it. For every list of version strings the filter
    keeps, in their order, exactly the strings that contain two separators,
    whatever their components are: a string is kept if and only if it is in
    the list and has two separators. Every string of the described shape is
    therefore kept, and every string with another number of separators is
    excluded. *)
Theorem stable_filter_two_dots (l : list string) :
  stable_filter (map Some l) = Ok (List.filter two_dots l)
  /\ (forall s, In s (List.filter two_dots l) <->
                In s l /\ Py.count "." s = 2%nat)
  /\ (forall s, In s l -> described_stable_shape s = true ->
                In s (List.filter two_dots l))
  /\ (forall s, Py.count "." s <> 2%nat -> ~ In s (List.filter two_dots l)).
Proof.
  split; [apply stable_filter_strings|].
  assert (T : forall s, two_dots s = true <-> Py.count "." s = 2%nat).
  { intros s. unfold two_dots. apply Nat.eqb_eq. }
  split; [|split].
  - intros s. rewrite filter_In, T. reflexivity.
  - intros s I D. apply filter_In. split; [exact I|].
    now apply described_shape_two_dots.
  - intros s N I. apply filter_In in I as [_ I]. now apply T in I.
Qed.

Lemma stable_filter_two_dots_witness :
  stable_filter (map Some ["2.401"; "2.390.1"; "a.b.1"; "1.2.3.4"])
  = Ok ["2.390.1"; "a.b.1"]
  /\ In "2.390.1" (List.filter two_dots ["2.401"; "2.390.1"; "a.b.1"; "1.2.3.4"])
  /\ ~ In "1.2.3.4" (List.filter two_dots ["2.401"; "2.390.1"; "a.b.1"; "1.2.3.4"]).
Proof.
  destruct (stable_filter_two_dots ["2.401"; "2.390.1"; "a.b.1"; "1.2.3.4"])
    as (F & _ & K & X).
  split; [exact F|]. split.
  - apply K; [right; now left | reflexivity].
  - apply X. discriminate.
Defined.

(** C3, as it is stated, fails: the filter keeps "a.b.1", whose major and
    minor components are not numeric. *)
Lemma stable_filter_keeps_non_numeric :
  ~ (forall (l : list string) (kept : list string) (s : string),
        stable_filter (map Some l) = Ok kept ->
        (In s kept <-> In s l /\ described_stable_shape s = true)).
Proof.
  intros H.
  destruct (H ["a.b.1"] ["a.b.1"] "a.b.1" eq_refl) as [K _].
  destruct (K (or_introl eq_refl)) as [_ D]. discriminate D.
Qed.

(** ** The document behind the lookups *)

Lemma split_latest_path :
  Py.split "/" "versioning/latest" = ["versioning"; "latest"].
Proof. reflexivity. Qed.

Lemma split_versions_path :
  Py.split "/" "versioning/versions/version"
  = ["versioning"; "versions"; "version"].
Proof. reflexivity. Qed.

Lemma split_nonempty (c : ascii) (s : string) : Py.split c s <> [].
Proof.
  intros E. pose proof (split_length c s) as L. now rewrite E in L.
Qed.

(** Nothing is found below an element without children. *)
Lemma findall_childless (path : string) (e : Element) :
  children e = [] -> findall path e = [].
Proof.
  intros C. unfold findall.
  destruct (Py.split "/" path) as [|t r] eqn:S;
    [now apply split_nonempty in S|].
  simpl. unfold children_tagged at 2. rewrite C. simpl.
  clear. induction r as [|u r IH]; simpl; [reflexivity | exact IH].
Qed.

Lemma find_latest_truthy (e latest : Element) :
  find "versioning/latest" e = Some latest -> not_root (Some e) = false.
Proof.
  unfold find, not_root, element_bool. intros H.
  destruct (children e) as [|c cs] eqn:C; [|reflexivity].
  now rewrite (findall_childless _ e C) in H.
Qed.

Section Lookups.

Variable net : nat -> string -> reply.

Lemma load_root_warm (s : state) :
  not_root (root s) = false -> load_root net s = (Ok tt, s).
Proof. unfold load_root, bind, get_root. now intros ->. Qed.

(** With no document at hand, [load_root] opens the metadata URL once. *)
Lemma load_root_cold (s : state) :
  not_root (root s) = true ->
  load_root net s =
    match net (opens (log s)) metadata_url with
    | Opened _ (Some e) =>
        (Ok tt, mkState (Some e) (Urlopen metadata_url :: log s))
    | Opened _ None => (Raise ParseError, opened metadata_url s)
    | Failed err =>
        if is_URLError err
        then (Ok tt,
              mkState None
                (Warning ("Error when building tree from metadata url: "
                          ++ str_exn err)
                 :: Urlopen metadata_url :: log s))
        else (Raise err, opened metadata_url s)
    end.
Proof.
  intros H. unfold load_root, bind, get_root. rewrite H.
  unfold build_tree, try_except, bind, urlopen, ET_parse, opened.
  destruct (net (opens (log s)) metadata_url) as [c [e|]|err]; simpl;
    try reflexivity.
  destruct (is_URLError err); reflexivity.
Qed.

(** Both lookups read the document that [load_root] leaves in
    [self.root]. *)
Lemma weekly_after_load (s : state) :
  get_latest_weekly_version net s =
    match load_root net s with
    | (Ok _, s') =>
        match root s' with
        | None => (Raise AttributeError, s')
        | Some e =>
            match find "versioning/latest" e with
            | None => (Raise AttributeError, s')
            | Some latest => (Ok (text latest), s')
            end
        end
    | (Raise err, s') => (Raise err, s')
    end.
Proof.
  unfold get_latest_weekly_version, bind, get_root.
  destruct (load_root net s) as [[[]|err] s']; [|reflexivity].
  destruct (root s') as [e|]; [|reflexivity].
  destruct (find "versioning/latest" e); reflexivity.
Qed.

Lemma stable_after_load (s : state) :
  get_latest_stable_version net s =
    match load_root net s with
    | (Ok _, s') =>
        match root s' with
        | None => (Raise AttributeError, s')
        | Some e =>
            match stable_filter
                    (map text (findall "versioning/versions/version" e))
            with
            | Raise err => (Raise err, s')
            | Ok stable_versions =>
                match sort_key_reverse as_version stable_versions with
                | Raise err => (Raise err, s')
                | Ok [] => (Raise IndexError, s')
                | Ok (v :: _) => (Ok v, s')
                end
            end
        end
    | (Raise err, s') => (Raise err, s')
    end.
Proof.
  unfold get_latest_stable_version, bind, get_root, lift.
  destruct (load_root net s) as [[[]|err] s']; [|reflexivity].
  destruct (root s') as [e|]; [|reflexivity].
  destruct (stable_filter _) as [l|err]; [|reflexivity].
  destruct (sort_key_reverse as_version l) as [[|v r]|err]; reflexivity.
Qed.

(** A weekly lookup that returns leaves a document with children in
    [self.root]. *)
Lemma weekly_ok_root (s s' : state) (w : option string) :
  get_latest_weekly_version net s = (Ok w, s') ->
  not_root (root s') = false.
Proof.
  rewrite weekly_after_load.
  destruct (load_root net s) as [[[]|err] s1]; [|discriminate].
  destruct (root s1) as [e|] eqn:R; [|discriminate].
  destruct (find "versioning/latest" e) as [latest|] eqn:F; [|discriminate].
  intros H. injection H as _ <-. rewrite R.
  exact (find_latest_truthy e latest F).
Qed.

(** A lookup on a loaded document leaves the state as it is. *)
Lemma weekly_warm (s s' : state) (r : result (option string)) :
  not_root (root s) = false ->
  get_latest_weekly_version net s = (r, s') -> s' = s.
Proof.
  intros W. rewrite weekly_after_load, (load_root_warm s W).
  destruct (root s) as [e|]; [|congruence].
  destruct (find "versioning/latest" e); congruence.
Qed.

Lemma stable_warm (s s' : state) (r : result string) :
  not_root (root s) = false ->
  get_latest_stable_version net s = (r, s') -> s' = s.
Proof.
  intros W. rewrite stable_after_load, (load_root_warm s W).
  destruct (root s) as [e|]; [|congruence].
  destruct (stable_filter _) as [l|err]; [|congruence].
  destruct (sort_key_reverse as_version l) as [[|v t]|err]; congruence.
Qed.

End Lookups.

(** ** What a call leaves in the log *)

Lemma fetches_fetch (l : list event) :
  fetches (Urlopen metadata_url :: l) = S (fetches l).
Proof. reflexivity. Qed.

Lemma fetches_urlopen (u : string) (l : list event) :
  u <> metadata_url -> fetches (Urlopen u :: l) = fetches l.
Proof.
  intros N. unfold fetches. cbn [List.filter].
  now destruct (String.eqb_spec u metadata_url).
Qed.

Lemma fetches_warning (m : string) (l : list event) :
  fetches (Warning m :: l) = fetches l.
Proof. reflexivity. Qed.

Lemma fetches_print (m : string) (l : list event) :
  fetches (Print m :: l) = fetches l.
Proof. reflexivity. Qed.

Lemma fetches_gauge (m : string) (v : Z) (t : list string) (l : list event) :
  fetches (Gauge m v t :: l) = fetches l.
Proof. reflexivity. Qed.

Section Effects.

Variable net : nat -> string -> reply.

(** [load_root] does nothing with a document at hand, and otherwise opens
    the metadata URL once, with at most a warning after it. *)
Lemma load_root_effect (s s1 : state) (r : result unit) :
  load_root net s = (r, s1) ->
  (not_root (root s) = false /\ s1 = s /\ r = Ok tt)
  \/ (not_root (root s) = true
      /\ (log s1 = Urlopen metadata_url :: log s
          \/ exists m, log s1 = Warning m :: Urlopen metadata_url :: log s)).
Proof.
  destruct (not_root (root s)) eqn:C.
  - rewrite (load_root_cold net s C). intros H. right. split; [reflexivity|].
    destruct (net (opens (log s)) metadata_url) as [c [e|]|err].
    + injection H as _ <-. now left.
    + injection H as _ <-. now left.
    + destruct (is_URLError err); injection H as _ <-;
        [right; eexists; reflexivity | now left].
  - rewrite (load_root_warm net s C). intros H. injection H as <- <-.
    now left.
Qed.

Lemma weekly_state (s s1 : state) (r : result (option string)) :
  get_latest_weekly_version net s = (r, s1) ->
  exists r0, load_root net s = (r0, s1).
Proof.
  rewrite weekly_after_load.
  destruct (load_root net s) as [[[]|err] s0].
  - destruct (root s0) as [e|];
      [destruct (find "versioning/latest" e)|];
      intros H; injection H as _ <-; now eexists.
  - intros H; injection H as _ <-; now eexists.
Qed.

(** After the weekly lookup has returned, the stable lookup reads the same
    document and leaves the state as it is; the state in which
    [create_endpoints] ends is the one the weekly lookup leaves. *)
Lemma create_endpoints_after_weekly (hostname : string) (s : state) :
  create_endpoints net hostname s =
    match get_latest_weekly_version net s with
    | (Ok w, s1) =>
        match fst (get_latest_stable_version net s1) with
        | Ok v => (Ok (endpoints_dict hostname w v), s1)
        | Raise err => (Raise err, s1)
        end
    | (Raise err, s1) => (Raise err, s1)
    end.
Proof.
  unfold create_endpoints, bind.
  destruct (get_latest_weekly_version net s) as [[w|err] s1] eqn:W;
    [|reflexivity].
  pose proof (weekly_ok_root net s s1 w W) as T.
  destruct (get_latest_stable_version net s1) as [r2 s2] eqn:V.
  rewrite (stable_warm net s1 s2 r2 T V).
  now destruct r2.
Qed.

Lemma create_endpoints_state (hostname : string) (s s1 : state)
  (r : result (gmap string string)) :
  create_endpoints net hostname s = (r, s1) ->
  exists r0, load_root net s = (r0, s1).
Proof.
  rewrite create_endpoints_after_weekly.
  destruct (get_latest_weekly_version net s) as [[w|err] s0] eqn:W.
  - destruct (fst (get_latest_stable_version net s0));
      intros H; injection H as _ <-; exact (weekly_state s s0 _ W).
  - intros H; injection H as _ <-; exact (weekly_state s s0 _ W).
Qed.

(** The prober opens its URL once, prints at most one diagnostic, and
    leaves [self.root] alone. *)
Lemma is_exist_effect (distribution url : string) (s s1 : state)
  (r : result Z) :
  is_exist net distribution url s = (r, s1) ->
  root s1 = root s
  /\ (log s1 = Urlopen url :: log s
      \/ exists m, log s1 = Print m :: Urlopen url :: log s).
Proof.
  unfold is_exist, try_except, bind, urlopen, print, emit, ret.
  destruct (net (opens (log s)) url) as [c b|err]; cbn [fst].
  - destruct (negb (c =? 200)); intros H; injection H as _ <-;
      (split; [reflexivity|]); [right; eexists; reflexivity | now left].
  - destruct (is_HTTPError err).
    + destruct (exn_code err =? 404); intros H; injection H as _ <-;
        (split; [reflexivity|]); right; eexists; reflexivity.
    + intros H; injection H as _ <-. split; [reflexivity | now left].
Qed.

(** The prober returns 0 or 1 whenever it returns, and it returns unless
    [urlopen] raises something else than an [HTTPError]. *)
Lemma is_exist_value (distribution url : string) (s : state) :
  match net (opens (log s)) url with
  | Opened _ _ => True
  | Failed err => is_HTTPError err = true
  end ->
  exists value s1,
    is_exist net distribution url s = (Ok value, s1)
    /\ (value = 0 \/ value = 1).
Proof.
  unfold is_exist, try_except, bind, urlopen, print, emit, ret.
  destruct (net (opens (log s)) url) as [c b|err]; cbn [fst].
  - intros _. destruct (negb (c =? 200)); eexists _, _;
      (split; [reflexivity | now right]).
  - intros ->. destruct (exn_code err =? 404); eexists _, _;
      (split; [reflexivity | now left]).
Qed.

End Effects.

(** ** The URLs of the table *)

Lemma endpoints_dom (hostname : string) (w : option string) (v : string) :
  dom (endpoints_dict hostname w v) = supported_packages.
Proof.
  unfold endpoints_dict, supported_packages. cbv zeta.
  rewrite dom_list_to_map_L. cbn [fmap list_fmap fst list_to_set].
  set_solver.
Qed.

Lemma endpoints_supported (hostname : string) (w : option string)
  (v package : string) :
  package ∈ supported_packages <->
  is_Some (endpoints_dict hostname w v !! package).
Proof. now rewrite <- (endpoints_dom hostname w v), elem_of_dom. Qed.

(** No URL of the table on the default host is the metadata URL. *)
Lemma endpoint_not_metadata (w : option string) (v package url : string) :
  endpoints_dict default_hostname w v !! package = Some url ->
  url <> metadata_url.
Proof.
  unfold endpoints_dict. cbv zeta. intros H.
  apply elem_of_list_to_map_2 in H.
  unfold default_hostname, metadata_url.
  repeat (apply elem_of_cons in H as [H|H];
          [injection H as _ ->; cbv [String.append]; discriminate|]).
  now apply elem_of_nil in H.
Qed.

(** ** The endpoint table *)

(** C1. For every host name and every two version strings the table of
    [create_endpoints] has exactly the ten keys [debian], [redhat],
    [opensuse], [windows], [war], [debian-stable], [redhat-stable],
    [windows-stable], [opensuse-stable] and [war-stable], each bound to the
    URL of its template, the first five with the weekly version and the last
    five with the stable one; with the sample versions "2.401" and "2.390.1"
    on "get.jenkins.io" the [war] entries are as expected. It is the table
    [create_endpoints] returns when the lookups return these versions. *)
Theorem endpoints_table (hostname rolling stable : string) :
  let d := endpoints_dict hostname (Some rolling) stable in
  dom d = {[ "debian"; "redhat"; "opensuse"; "windows"; "war";
             "debian-stable"; "redhat-stable"; "windows-stable";
             "opensuse-stable"; "war-stable" ]}
  /\ d !! "debian"
     = Some ("https://" ++ hostname ++ "/debian/jenkins_" ++ rolling
             ++ "_all.deb")
  /\ d !! "redhat"
     = Some ("https://" ++ hostname ++ "/redhat/jenkins-" ++ rolling
             ++ "-1.1.noarch.rpm")
  /\ d !! "opensuse"
     = Some ("https://" ++ hostname ++ "/opensuse/jenkins-" ++ rolling
             ++ "-1.2.noarch.rpm")
  /\ d !! "windows"
     = Some ("https://" ++ hostname ++ "/windows/" ++ rolling
             ++ "/jenkins.msi")
  /\ d !! "war"
     = Some ("https://" ++ hostname ++ "/war/" ++ rolling ++ "/jenkins.war")
  /\ d !! "debian-stable"
     = Some ("https://" ++ hostname ++ "/debian-stable/jenkins_" ++ stable
             ++ "_all.deb")
  /\ d !! "redhat-stable"
     = Some ("https://" ++ hostname ++ "/redhat-stable/jenkins-" ++ stable
             ++ "-1.1.noarch.rpm")
  /\ d !! "windows-stable"
     = Some ("https://" ++ hostname ++ "/windows-stable/" ++ stable
             ++ "/jenkins.msi")
  /\ d !! "opensuse-stable"
     = Some ("https://" ++ hostname ++ "/opensuse-stable/jenkins-" ++ stable
             ++ "-1.2.noarch.rpm")
  /\ d !! "war-stable"
     = Some ("https://" ++ hostname ++ "/war-stable/" ++ stable
             ++ "/jenkins.war")
  /\ endpoints_dict "get.jenkins.io" (Some "2.401") "2.390.1" !! "war"
     = Some "https://get.jenkins.io/war/2.401/jenkins.war"
  /\ endpoints_dict "get.jenkins.io" (Some "2.401") "2.390.1" !! "war-stable"
     = Some "https://get.jenkins.io/war-stable/2.390.1/jenkins.war"
  /\ (forall net s s1 s2,
         get_latest_weekly_version net s = (Ok (Some rolling), s1) ->
         get_latest_stable_version net s1 = (Ok stable, s2) ->
         fst (create_endpoints net hostname s) = Ok d).
Proof.
  cbv zeta. split; [apply endpoints_dom|].
  assert (T : forall (A B : Prop), A -> B -> A /\ B) by now split.
  repeat (apply T;
          [unfold endpoints_dict; cbn [Py.fmt list_to_map foldr uncurry fst snd];
           by simplify_map_eq|]).
  intros net s s1 s2 W V.
  rewrite create_endpoints_after_weekly, W. cbn [fst]. now rewrite V.
Qed.

Lemma endpoints_table_witness :
  fst (create_endpoints sample_net "get.jenkins.io" fresh)
  = Ok (endpoints_dict "get.jenkins.io" (Some "2.401") "2.390.1").
Proof.
  destruct (endpoints_table "get.jenkins.io" "2.401" "2.390.1")
    as (_ & _ & _ & _ & _ & _ & _ & _ & _ & _ & _ & _ & _ & C).
  exact (C sample_net fresh
           (mkState (Some sample_doc) [Urlopen metadata_url])
           (mkState (Some sample_doc) [Urlopen metadata_url])
           eq_refl eq_refl).
Defined.

(** ** The resolved versions *)

Lemma version_lt_asym (u v : string) :
  version_lt u v = true -> version_lt v u = false.
Proof.
  unfold version_lt. destruct (as_version u), (as_version v); try easy.
  apply list_lt_asym.
Qed.

Lemma version_lt_irrefl (v : string) : version_lt v v = false.
Proof.
  unfold version_lt. destruct (as_version v); [apply list_lt_irrefl | easy].
Qed.

Section Resolver.

Variable net : nat -> string -> reply.



(** C6. When the filtered list of the version texts of the document is
    empty, the stable lookup returns no version: it raises the out-of-range
    fault of [stable_versions[0]], Python's [IndexError], which is the
    error the description calls EmptyVersionSetError. *)
Theorem no_stable_version (s s' : state) (d : Element) :
  load_root net s = (Ok tt, s') ->
  root s' = Some d ->
  stable_filter (version_texts d) = Ok [] ->
  get_latest_stable_version net s = (Raise IndexError, s').
Proof.
  intros L R S. rewrite stable_after_load, L, R.
  fold (version_texts d). now rewrite S.
Qed.

(** A version entry without text stops the lookup with the
    [AttributeError] of [None.count]. *)
Lemma stable_lookup_no_text (s s' : state) (d : Element) :
  load_root net s = (Ok tt, s') ->
  root s' = Some d ->
  In None (version_texts d) ->
  get_latest_stable_version net s = (Raise AttributeError, s').
Proof.
  intros L R I. rewrite stable_after_load, L, R.
  fold (version_texts d).
  assert (E : stable_filter (version_texts d) = Raise AttributeError).
  { induction (version_texts d) as [|[t|] r IH]; [easy| |reflexivity].
    cbn [stable_filter]. destruct I as [I|I]; [discriminate|].
    rewrite (IH I). now destruct (Nat.eqb (Py.count "." t) 2). }
  now rewrite E.
Qed.

End Resolver.



Lemma no_stable_version_witness :
  get_latest_stable_version weekly_only_net fresh
  = (Raise IndexError, mkState (Some weekly_only_doc) [Urlopen metadata_url]).
Proof.
  exact (no_stable_version weekly_only_net fresh
           (mkState (Some weekly_only_doc) [Urlopen metadata_url])
           weekly_only_doc eq_refl eq_refl eq_refl).
Defined.

(** ** The prober *)

Lemma append_cons (c : ascii) (a b : string) :
  String c a ++ b = String c (a ++ b).
Proof. reflexivity. Qed.

Lemma append_empty_r (t : string) : t ++ "" = t.
Proof.
  induction t as [|c t IH]; [reflexivity|].
  now rewrite append_cons, IH.
Qed.

Lemma contains_suffix (pre t : string) : contains (pre ++ t) t.
Proof. exists pre, "". now rewrite append_empty_r. Qed.

Lemma append_assoc (a b c : string) : (a ++ b) ++ c = a ++ (b ++ c).
Proof.
  induction a as [|x a IH]; [reflexivity|].
  now rewrite !append_cons, IH.
Qed.

(** An exception of [urlopen] that is no [HTTPError] leaves the prober as it
    came. *)
Lemma is_exist_other_error (net : nat -> string -> reply)
  (distribution url : string) (s : state) (err : exn) :
  net (opens (log s)) url = Failed err -> is_HTTPError err = false ->
  is_exist net distribution url s = (Raise err, opened url s).
Proof.
  intros N H. unfold is_exist, try_except, bind, urlopen. now rewrite N, H.
Qed.

(** C5. The prober classifies what [urlopen] meets: a response with code
    200 gives 1 and prints nothing; a response with another code gives 1 and
    prints the code; a raised [HTTPError] with code 404 gives 0 and prints
    that the package was not found on the URL; a raised [HTTPError] with
    another code gives 0 and prints a diagnostic that ends with the error,
    its code and message included. In each case the only other event is the
    [urlopen] itself. *)
Theorem is_exist_classification (net : nat -> string -> reply)
  (distribution url : string) (s : state) :
  (forall body,
      net (opens (log s)) url = Opened 200 body ->
      is_exist net distribution url s = (Ok 1, opened url s))
  /\ (forall c body,
      net (opens (log s)) url = Opened c body -> c <> 200 ->
      is_exist net distribution url s
      = (Ok 1,
         logged (Print ("return code should be 200 but is "
                        ++ Py.str_of_int c)) (opened url s)))
  /\ (forall msg,
      net (opens (log s)) url = Failed (HTTPError 404 msg) ->
      is_exist net distribution url s
      = (Ok 0,
         logged (Print (distribution ++ " package not found on " ++ url))
           (opened url s)))
  /\ (forall c msg,
      net (opens (log s)) url = Failed (HTTPError c msg) -> c <> 404 ->
      exists diagnostic,
        is_exist net distribution url s
        = (Ok 0, logged (Print diagnostic) (opened url s))
        /\ diagnostic
           = ("Something went wrong with url " ++ url ++ " for "
              ++ distribution ++ " package: ")
             ++ "HTTP Error " ++ Py.str_of_int c ++ ": " ++ msg
        /\ contains diagnostic (Py.str_of_int c)
        /\ contains diagnostic msg).
Proof.
  unfold is_exist, try_except, bind, urlopen, print, emit, ret, opened, logged.
  repeat split.
  - intros body ->. reflexivity.
  - intros c body -> Hc. cbn [fst negb].
    destruct (Z.eqb_spec c 200) as [->|_]; [congruence | reflexivity].
  - intros msg ->. reflexivity.
  - intros c msg -> Hc. cbn [is_HTTPError exn_code].
    destruct (Z.eqb_spec c 404) as [->|_]; [congruence|].
    eexists. split; [reflexivity|]. cbn [str_exn root log].
    split; [|split].
    + now rewrite !append_assoc.
    + exists ("Something went wrong with url " ++ url ++ " for "
              ++ distribution ++ " package: HTTP Error "), (": " ++ msg).
      now rewrite !append_assoc.
    + rewrite <- !append_assoc. apply contains_suffix.
Qed.

Lemma is_exist_classification_witness :
  is_exist sample_net "war"
    "https://get.jenkins.io/war/2.401/jenkins.war" fresh
  = (Ok 1, opened "https://get.jenkins.io/war/2.401/jenkins.war" fresh)
  /\ is_exist sample_net "debian"
       "https://get.jenkins.io/debian/jenkins_2.401_all.deb" fresh
     = (Ok 1,
        logged (Print "return code should be 200 but is 204")
          (opened "https://get.jenkins.io/debian/jenkins_2.401_all.deb"
             fresh))
  /\ is_exist sample_net "war-stable"
       "https://get.jenkins.io/war-stable/2.390.1/jenkins.war" fresh
     = (Ok 0,
        logged (Print "war-stable package not found on https://get.jenkins.io/war-stable/2.390.1/jenkins.war")
          (opened "https://get.jenkins.io/war-stable/2.390.1/jenkins.war"
             fresh))
  /\ (exists diagnostic,
        is_exist sample_net "redhat"
          "https://get.jenkins.io/redhat/jenkins-2.401-1.1.noarch.rpm" fresh
        = (Ok 0,
           logged (Print diagnostic)
             (opened
                "https://get.jenkins.io/redhat/jenkins-2.401-1.1.noarch.rpm"
                fresh))
        /\ contains diagnostic "500").
Proof.
  split; [|split; [|split]].
  - exact (proj1 (is_exist_classification sample_net "war"
                    "https://get.jenkins.io/war/2.401/jenkins.war" fresh)
             None eq_refl).
  - refine (proj1 (proj2 (is_exist_classification sample_net "debian"
                    "https://get.jenkins.io/debian/jenkins_2.401_all.deb"
                    fresh)) 204 None eq_refl _).
    discriminate.
  - exact (proj1 (proj2 (proj2 (is_exist_classification sample_net
                    "war-stable"
                    "https://get.jenkins.io/war-stable/2.390.1/jenkins.war"
                    fresh))) "Not Found" eq_refl).
  - destruct (proj2 (proj2 (proj2 (is_exist_classification sample_net
                    "redhat"
                    "https://get.jenkins.io/redhat/jenkins-2.401-1.1.noarch.rpm"
                    fresh))) 500 "Internal Server Error" eq_refl
                ltac:(discriminate)) as (d & E & _ & C & _).
    exists d. split; [exact E | exact C].
Defined.

(** ** The endpoint builder leaves the world alone *)

(** C9. Given the two versions the lookups return, [create_endpoints]
    returns the table formatted from them and the host name, and ends in the
    state the lookups leave: building the table opens no URL, logs nothing
    and does not touch [self.root]. The stable lookup that follows the
    weekly one changes nothing either, and with a document at hand the whole
    call leaves the state as it found it. *)
Theorem create_endpoints_pure (net : nat -> string -> reply)
  (hostname : string) (s s1 s2 : state) (w : option string) (v : string) :
  get_latest_weekly_version net s = (Ok w, s1) ->
  get_latest_stable_version net s1 = (Ok v, s2) ->
  create_endpoints net hostname s = (Ok (endpoints_dict hostname w v), s2)
  /\ s2 = s1
  /\ (not_root (root s) = false -> s2 = s).
Proof.
  intros W V.
  pose proof (stable_warm net s1 s2 _ (weekly_ok_root net s s1 w W) V) as E.
  subst s2. rewrite create_endpoints_after_weekly, W, V. cbn [fst].
  repeat split. intros C. exact (weekly_warm net s s1 _ C W).
Qed.

Lemma create_endpoints_pure_witness :
  let loaded := mkState (Some sample_doc) [Urlopen metadata_url] in
  let table := endpoints_dict "get.jenkins.io" (Some "2.401") "2.390.1" in
  create_endpoints sample_net "get.jenkins.io" fresh = (Ok table, loaded)
  /\ create_endpoints sample_net "get.jenkins.io" loaded = (Ok table, loaded).
Proof.
  cbv zeta. split.
  - exact (proj1 (create_endpoints_pure sample_net "get.jenkins.io" fresh
                    (mkState (Some sample_doc) [Urlopen metadata_url])
                    (mkState (Some sample_doc) [Urlopen metadata_url])
                    (Some "2.401") "2.390.1" eq_refl eq_refl)).
  - destruct (create_endpoints_pure sample_net "get.jenkins.io"
                (mkState (Some sample_doc) [Urlopen metadata_url])
                (mkState (Some sample_doc) [Urlopen metadata_url])
                (mkState (Some sample_doc) [Urlopen metadata_url])
                (Some "2.401") "2.390.1" eq_refl eq_refl) as (E & _ & _).
    exact E.
Defined.

(** ** A metadata document that cannot be fetched *)

(** C7, on the code. When no document is at hand and [urlopen] raises a
    [URLError] for the metadata URL, [build_tree] logs a warning and returns
    [None]; no document is produced, and each lookup, [create_endpoints] and
    [check] then raise [AttributeError] on [None] instead of a fetch
    error. *)
Theorem fetch_failure_dereferences_none (net : nat -> string -> reply)
  (s : state) (err : exn) (hostname : string)
  (instance : gmap string string) :
  not_root (root s) = true ->
  net (opens (log s)) metadata_url = Failed err ->
  is_URLError err = true ->
  let s' := mkState None
              (Warning ("Error when building tree from metadata url: "
                        ++ str_exn err)
               :: Urlopen metadata_url :: log s) in
  build_tree net metadata_url s
  = (Ok None, logged (Warning ("Error when building tree from metadata url: "
                               ++ str_exn err)) (opened metadata_url s))
  /\ get_latest_weekly_version net s = (Raise AttributeError, s')
  /\ get_latest_stable_version net s = (Raise AttributeError, s')
  /\ create_endpoints net hostname s = (Raise AttributeError, s')
  /\ check net instance s = (Raise AttributeError, s').
Proof.
  intros C N U s'.
  assert (L : load_root net s = (Ok tt, s')).
  { rewrite (load_root_cold net s C), N, U. reflexivity. }
  assert (W : get_latest_weekly_version net s = (Raise AttributeError, s')).
  { now rewrite weekly_after_load, L. }
  split; [|split; [exact W|split; [|split]]].
  - unfold build_tree, try_except, bind, urlopen. rewrite N, U. reflexivity.
  - now rewrite stable_after_load, L.
  - now rewrite create_endpoints_after_weekly, W.
  - unfold check, bind.
    now rewrite create_endpoints_after_weekly, W.
Qed.

Lemma fetch_failure_dereferences_none_witness :
  check unreachable_net war_instance fresh
  = (Raise AttributeError,
     mkState None
       [Warning "Error when building tree from metadata url: <urlopen error [Errno -2] Name or service not known>";
        Urlopen metadata_url]).
Proof.
  exact (proj2 (proj2 (proj2 (proj2
           (fetch_failure_dereferences_none unreachable_net fresh
              (URLError "[Errno -2] Name or service not known")
              default_hostname war_instance eq_refl eq_refl eq_refl))))).
Defined.

(** ** One gauge for a supported package *)

Section Orchestration.

Variable net : nat -> string -> reply.

Lemma check_after_endpoints (instance : gmap string string)
  (package : string) (s s1 : state) (endpoints : gmap string string) :
  instance !! "package" = Some package ->
  create_endpoints net default_hostname s = (Ok endpoints, s1) ->
  check net instance s =
    let s2 := logged (Warning ("PackageAvailable: " ++ package)) s1 in
    match endpoints !! package with
    | Some url =>
        match is_exist net package url s2 with
        | (Ok value, s3) =>
            (Ok tt,
             logged (Gauge "jenkins.package.available" value
                       ["package:" ++ package]) s3)
        | (Raise err, s3) => (Raise err, s3)
        end
    | None =>
        (Ok tt,
         logged (Warning ("PackageCanDownload: Package " ++ package
                          ++ " is not supported")) s2)
    end.
Proof.
  intros I E. unfold check, bind. rewrite E.
  unfold lift. rewrite I. cbn [of_option].
  unfold warning, gauge, emit, logged. cbv zeta. cbn [root log].
  destruct (endpoints !! package) as [url|]; [|reflexivity].
  destruct (is_exist net package url _) as [[value|err] s3]; reflexivity.
Qed.

Lemma create_endpoints_gauges (hostname : string) (s s1 : state)
  (r : result (gmap string string)) :
  create_endpoints net hostname s = (r, s1) ->
  gauges (log s1) = gauges (log s).
Proof.
  intros H. destruct (create_endpoints_state net hostname s s1 r H) as [r0 L].
  destruct (load_root_effect net s s1 r0 L)
    as [(_ & -> & _)|(_ & [->|[m ->]])]; reflexivity.
Qed.

(** C8, as the code has it. Let the table be built and the configuration
    ask for [package]. The table has an entry for [package] exactly when
    it is one of the ten supported identifiers. If it has one, and the
    probe of its URL meets a response or an [HTTPError], the run returns
    and adds to the log exactly one gauge, named
    [jenkins.package.available], tagged [package:<package>], whose value
    is the 0 or 1 the prober returned. If the probe meets another
    exception, the run raises it and adds no gauge. If the table has no
    entry, the run returns, adds no gauge and logs the warning that the
    package is not supported. *)
Theorem check_gauge (instance : gmap string string) (package : string)
  (s s1 : state) (endpoints : gmap string string) :
  instance !! "package" = Some package ->
  create_endpoints net default_hostname s = (Ok endpoints, s1) ->
  let s2 := logged (Warning ("PackageAvailable: " ++ package)) s1 in
  (package ∈ supported_packages <-> is_Some (endpoints !! package))
  /\ (forall url,
         endpoints !! package = Some url ->
         match net (opens (log s2)) url with
         | Opened _ _ => True
         | Failed err => is_HTTPError err = true
         end ->
         exists value s3,
           is_exist net package url s2 = (Ok value, s3)
           /\ (value = 0 \/ value = 1)
           /\ check net instance s
              = (Ok tt,
                 logged (Gauge "jenkins.package.available" value
                           ["package:" ++ package]) s3)
           /\ gauges (Gauge "jenkins.package.available" value
                        ["package:" ++ package] :: log s3)
              = Gauge "jenkins.package.available" value
                  ["package:" ++ package] :: gauges (log s))
  /\ (endpoints !! package = None ->
      check net instance s
      = (Ok tt,
         logged (Warning ("PackageCanDownload: Package " ++ package
                          ++ " is not supported")) s2)
      /\ gauges (Warning ("PackageCanDownload: Package " ++ package
                          ++ " is not supported") :: log s2)
         = gauges (log s))
  /\ (forall url err,
         endpoints !! package = Some url ->
         net (opens (log s2)) url = Failed err ->
         is_HTTPError err = false ->
         check net instance s = (Raise err, opened url s2)
         /\ gauges (log (opened url s2)) = gauges (log s)).
Proof.
  intros I E s2.
  pose proof (check_after_endpoints instance package s s1 endpoints I E)
    as C. cbv zeta in C. fold s2 in C.
  pose proof (create_endpoints_gauges _ s s1 _ E) as G.
  assert (D : exists w v, endpoints = endpoints_dict default_hostname w v).
  { rewrite create_endpoints_after_weekly in E.
    destruct (get_latest_weekly_version net s) as [[w|err] s0];
      [|discriminate].
    destruct (fst (get_latest_stable_version net s0)) as [v|err];
      [|discriminate].
    injection E as <- _. now exists w, v. }
  destruct D as (w & v & ->).
  split; [apply endpoints_supported|]. split; [|split].
  - intros url U N.
    destruct (is_exist_value net package url s2 N) as (value & s3 & X & V).
    exists value, s3. rewrite C, U, X.
    destruct (is_exist_effect net package url s2 s3 _ X)
      as [_ [L|[m L]]]; rewrite L; repeat split; try assumption;
      cbn [gauges List.filter]; fold (gauges (log s2));
      unfold s2, logged; cbn [log gauges List.filter];
      fold (gauges (log s1)); now rewrite G.
  - intros U. rewrite C, U. split; [reflexivity|].
    unfold s2, logged. cbn [log gauges List.filter].
    fold (gauges (log s1)). exact G.
  - intros url err U N H.
    rewrite C, U, (is_exist_other_error net package url s2 err N H).
    split; [reflexivity|].
    unfold opened, s2, logged. cbn [log gauges List.filter].
    fold (gauges (log s1)). exact G.
Qed.

(** ** The cached document *)

(** A run of [check] ends with the document and the number of fetches
    that [create_endpoints] leaves. *)
Lemma check_state (instance : gmap string string) (s s' : state)
  (r : result unit) :
  check net instance s = (r, s') ->
  exists r1 s1,
    create_endpoints net default_hostname s = (r1, s1)
    /\ root s' = root s1
    /\ fetches (log s') = fetches (log s1).
Proof.
  destruct (create_endpoints net default_hostname s) as [[endpoints|err] s1]
    eqn:E.
  - destruct (instance !! "package") as [package|] eqn:I.
    + rewrite (check_after_endpoints instance package s s1 endpoints I E).
      cbv zeta. intros H. exists (Ok endpoints), s1.
      split; [reflexivity|].
      destruct (endpoints !! package) as [url|] eqn:U.
      * assert (N : url <> metadata_url).
        { rewrite create_endpoints_after_weekly in E.
          destruct (get_latest_weekly_version net s) as [[w|e] s0];
            [|discriminate].
          destruct (fst (get_latest_stable_version net s0)) as [v|e];
            [|discriminate].
          injection E as <- _.
          exact (endpoint_not_metadata w v package url U). }
        destruct (is_exist net package url _) as [r3 s3] eqn:X.
        destruct (is_exist_effect net package url _ s3 r3 X) as [R L].
        assert (F : fetches (log s3) = fetches (log s1)).
        { destruct L as [->|[m ->]]; cbn [logged log];
            rewrite ?fetches_print, (fetches_urlopen url _ N);
            reflexivity. }
        destruct r3 as [value|err]; injection H as _ <-;
          cbn [logged root log]; rewrite ?fetches_gauge; now split.
      * injection H as _ <-. now split.
    + unfold check, bind. rewrite E. unfold lift. rewrite I.
      intros H. injection H as _ <-. exists (Ok endpoints), s1.
      now repeat split.
  - unfold check, bind. rewrite E. intros H. injection H as _ <-.
    exists (Raise err), s1. now repeat split.
Qed.

(** With a document at hand a run keeps it and fetches nothing. *)
Lemma check_warm (instance : gmap string string) (s s' : state)
  (r : result unit) :
  not_root (root s) = false ->
  check net instance s = (r, s') ->
  root s' = root s /\ fetches (log s') = fetches (log s).
Proof.
  intros W H.
  destruct (check_state instance s s' r H) as (r1 & s1 & E & R & F).
  destruct (create_endpoints_state net _ s s1 r1 E) as [r0 L].
  rewrite (load_root_warm net s W) in L.
  injection L as _ <-. now split.
Qed.

(** C10, as the code has it. The parsed document is kept in the check
    object and nothing resets it. A run fetches the metadata at most once:
    exactly once when it starts without a document with children, and not
    at all when it starts with one, which is still there after the run.
    After the weekly lookup has returned, the stable lookup reads the same
    document without a fetch. A document fetched by a run stays in the
    object when the run is over; when it has children, every later run of
    the same object keeps it and fetches nothing. *)
Theorem document_cache (instance : gmap string string) (s s' : state)
  (r : result unit) :
  check net instance s = (r, s') ->
  (fetches (log s') <= S (fetches (log s)))%nat
  /\ (not_root (root s) = false ->
      root s' = root s /\ fetches (log s') = fetches (log s))
  /\ (forall w s1 r2 s2,
         get_latest_weekly_version net s = (Ok w, s1) ->
         get_latest_stable_version net s1 = (r2, s2) ->
         s2 = s1 /\ root s' = root s1)
  /\ (forall c e,
         not_root (root s) = true ->
         net (opens (log s)) metadata_url = Opened c (Some e) ->
         root s' = Some e)
  /\ (not_root (root s) = true ->
      fetches (log s') = S (fetches (log s)))
  /\ (forall c e instance' r' s'',
         not_root (root s) = true ->
         net (opens (log s)) metadata_url = Opened c (Some e) ->
         element_bool e = true ->
         check net instance' s' = (r', s'') ->
         root s'' = Some e /\ fetches (log s'') = fetches (log s')).
Proof.
  intros H.
  destruct (check_state instance s s' r H) as (r1 & s1 & E & R & F).
  destruct (create_endpoints_state net _ s s1 r1 E) as [r0 L].
  assert (P : forall c e,
             not_root (root s) = true ->
             net (opens (log s)) metadata_url = Opened c (Some e) ->
             root s' = Some e).
  { intros c e C N. rewrite (load_root_cold net s C), N in L.
    injection L as _ <-. exact R. }
  split; [|split; [|split; [|split; [|split]]]].
  - rewrite F.
    destruct (load_root_effect net s s1 r0 L)
      as [(_ & -> & _)|(_ & [->|[m ->]])];
      rewrite ?fetches_warning, ?fetches_fetch; lia.
  - intros W. exact (check_warm instance s s' r W H).
  - intros w s0 r2 s2 W V.
    split; [exact (stable_warm net s0 s2 r2 (weekly_ok_root net s s0 w W) V)|].
    rewrite create_endpoints_after_weekly, W in E.
    rewrite R. destruct (fst (get_latest_stable_version net s0));
      now injection E as _ <-.
  - exact P.
  - intros C. rewrite F.
    destruct (load_root_effect net s s1 r0 L)
      as [(C' & _)|(_ & [->|[m ->]])]; [congruence|reflexivity..].
  - intros c e instance' r' s'' C N B H'.
    pose proof (P c e C N) as Re.
    assert (W : not_root (root s') = false).
    { rewrite Re. unfold not_root. now rewrite B. }
    destruct (check_warm instance' s' s'' r' W H') as [R' F'].
    split; [congruence | exact F'].
Qed.

End Orchestration.

Lemma check_gauge_witness :
  (exists value s3,
      is_exist sample_net "war" "https://get.jenkins.io/war/2.401/jenkins.war"
        (mkState (Some sample_doc)
           [Warning "PackageAvailable: war"; Urlopen metadata_url])
      = (Ok value, s3)
      /\ (value = 0 \/ value = 1)
      /\ check sample_net war_instance fresh
         = (Ok tt,
            logged (Gauge "jenkins.package.available" value ["package:war"])
              s3)
      /\ gauges (Gauge "jenkins.package.available" value ["package:war"]
                 :: log s3)
         = [Gauge "jenkins.package.available" value ["package:war"]])
  /\ check sample_net zip_instance fresh
     = (Ok tt,
        mkState (Some sample_doc)
          [Warning "PackageCanDownload: Package zip is not supported";
           Warning "PackageAvailable: zip"; Urlopen metadata_url])
  /\ check probe_down_net war_instance fresh
     = (Raise (URLError "[Errno 111] Connection refused"),
        mkState (Some sample_doc)
          [Urlopen "https://get.jenkins.io/war/2.401/jenkins.war";
           Warning "PackageAvailable: war"; Urlopen metadata_url]).
Proof.
  split; [|split].
  - exact (proj1 (proj2
             (check_gauge sample_net war_instance "war" fresh
                (mkState (Some sample_doc) [Urlopen metadata_url])
                (endpoints_dict "get.jenkins.io" (Some "2.401") "2.390.1")
                eq_refl eq_refl))
             "https://get.jenkins.io/war/2.401/jenkins.war" eq_refl I).
  - exact (proj1 (proj1 (proj2 (proj2
             (check_gauge sample_net zip_instance "zip" fresh
                (mkState (Some sample_doc) [Urlopen metadata_url])
                (endpoints_dict "get.jenkins.io" (Some "2.401") "2.390.1")
                eq_refl eq_refl))) eq_refl)).
  - exact (proj1 (proj2 (proj2 (proj2
             (check_gauge probe_down_net war_instance "war" fresh
                (mkState (Some sample_doc) [Urlopen metadata_url])
                (endpoints_dict "get.jenkins.io" (Some "2.401") "2.390.1")
                eq_refl eq_refl)))
             "https://get.jenkins.io/war/2.401/jenkins.war"
             (URLError "[Errno 111] Connection refused")
             eq_refl eq_refl eq_refl)).
Defined.

(** C8, as it is stated, fails: [war] is one of the ten supported
    identifiers and the table is built, but on a network where the package
    host refuses the connection the probe raises a [URLError], which the
    prober does not catch: the run raises it and emits no gauge. Nor is a
    gauge emitted on a network where the metadata is out of reach: the table
    is not built and the run raises [AttributeError]. *)
Lemma check_supported_without_gauge :
  "war" ∈ supported_packages
  /\ check probe_down_net war_instance fresh
     = (Raise (URLError "[Errno 111] Connection refused"),
        mkState (Some sample_doc)
          [Urlopen "https://get.jenkins.io/war/2.401/jenkins.war";
           Warning "PackageAvailable: war"; Urlopen metadata_url])
  /\ gauges (log (snd (check probe_down_net war_instance fresh))) = []
  /\ fst (check unreachable_net war_instance fresh) = Raise AttributeError
  /\ gauges (log (snd (check unreachable_net war_instance fresh))) = []
  /\ ~ (forall (net : nat -> string -> reply)
               (instance : gmap string string) (package : string)
               (s s1 : state) (endpoints : gmap string string),
          instance !! "package" = Some package ->
          create_endpoints net default_hostname s = (Ok endpoints, s1) ->
          package ∈ supported_packages ->
          exists value s',
            check net instance s = (Ok tt, s')
            /\ gauges (log s')
               = Gauge "jenkins.package.available" value
                   ["package:" ++ package] :: gauges (log s)).
Proof.
  assert (W : "war" ∈ supported_packages)
    by (unfold supported_packages; set_solver).
  split; [exact W|]. do 4 (split; [reflexivity|]).
  intros H.
  destruct (H probe_down_net war_instance "war" fresh
              (mkState (Some sample_doc) [Urlopen metadata_url])
              (endpoints_dict "get.jenkins.io" (Some "2.401") "2.390.1")
              eq_refl eq_refl W) as (value & s' & E & _).
  discriminate E.
Qed.

Lemma document_cache_witness :
  let first := snd (check drifting_net war_instance fresh) in
  let second := snd (check drifting_net war_instance first) in
  (fetches (log first) <= 1)%nat
  /\ fetches (log first) = 1%nat
  /\ root first = Some sample_doc
  /\ root second = Some sample_doc
  /\ fetches (log second) = fetches (log first).
Proof.
  cbv zeta.
  destruct (document_cache drifting_net war_instance fresh
              (snd (check drifting_net war_instance fresh)) (Ok tt) eq_refl)
    as (F & _ & _ & P & X & T).
  destruct (T 200 sample_doc war_instance (Ok tt)
              (snd (check drifting_net war_instance
                      (snd (check drifting_net war_instance fresh))))
              eq_refl eq_refl eq_refl eq_refl) as [R2 F2].
  split; [exact F|]. split; [exact (X eq_refl)|].
  split; [exact (P 200 sample_doc eq_refl eq_refl)|].
  split; [exact R2 | exact F2].
Defined.

(** C10, as it is stated, fails: the document does not go away between two
    runs. After a first run of a fresh object on a network whose metadata
    then changes, the object holds the first document; a second run of the
    same object fetches nothing, probes the URL of the old version and still
    holds the first document, where a run that started afresh would fetch
    the new one. *)
Lemma document_persists_across_runs :
  let first := snd (check drifting_net war_instance fresh) in
  let second := snd (check drifting_net war_instance first) in
  root first = Some sample_doc
  /\ root second = Some sample_doc
  /\ fetches (log first) = 1%nat
  /\ fetches (log second) = 1%nat
  /\ log second
     = ([Gauge "jenkins.package.available" 1 ["package:war"];
         Urlopen "https://get.jenkins.io/war/2.401/jenkins.war";
         Warning "PackageAvailable: war"] ++ log first)%list
  /\ root (snd (check drifting_net war_instance
                  (mkState None (log first)))) = Some newer_doc
  /\ ~ (forall net instance s r s',
          check net instance s = (r, s') -> root s' = None)
  /\ ~ (forall net instance s,
          check net instance s = check net instance (mkState None (log s))).
Proof.
  cbv zeta. repeat split.
  - intros H.
    specialize (H drifting_net war_instance fresh _ _ eq_refl).
    discriminate H.
  - intros H.
    specialize (H drifting_net war_instance
                  (snd (check drifting_net war_instance fresh))).
    apply (f_equal (fun p => root (snd p))) in H. discriminate H.
Qed.

(** * Further properties of the check *)

(** ** The lookups *)

Section MoreLookups.

Variable net : nat -> string -> reply.

Lemma load_root_raises (s s1 : state) (e : exn) :
load_root net s = (Raise e, s1) -> is_URLError e = false.
Proof.
destruct (not_root (root s)) eqn:C.
- rewrite (load_root_cold net s C).
  destruct (net (opens (log s)) metadata_url) as [c [d|]|err].
  + discriminate.
  + intros H. now injection H as <- _.
  + destruct (is_URLError err) eqn:U; [discriminate|].
    intros H. now injection H as <- _.
- rewrite (load_root_warm net s C). discriminate.
Qed.

Lemma stable_filter_raises (texts : list (option string)) (e : exn) :
stable_filter texts = Raise e -> e = AttributeError /\ In None texts.
Proof.
induction texts as [|[t|] r IH]; [discriminate| |].
- cbn [stable_filter].
  destruct (stable_filter r) as [rest|e'].
  + destruct (Nat.eqb (Py.count "." t) 2); discriminate.
  + intros H. assert (E : e' = e).
    { destruct (Nat.eqb (Py.count "." t) 2); now injection H. }
    subst e'. destruct (IH eq_refl) as [-> I]. split; [reflexivity|].
    now right.
- intros H. injection H as <-. split; [reflexivity | now left].
Qed.

(** X1. Once the weekly and then the stable lookup have returned, the two
  lookups can be repeated and called in the other order: from the first
  state the stable lookup returns the same version and ends in the same
  state as the weekly one, and from that state on both lookups return the
  same versions and change nothing. *)
Theorem lookups_any_order (s s1 s2 : state) (w : option string) (v : string) :
get_latest_weekly_version net s = (Ok w, s1) ->
get_latest_stable_version net s1 = (Ok v, s2) ->
s2 = s1
/\ get_latest_stable_version net s = (Ok v, s1)
/\ get_latest_weekly_version net s1 = (Ok w, s1)
/\ get_latest_stable_version net s1 = (Ok v, s1).
Proof.
intros W V.
pose proof (weekly_ok_root net s s1 w W) as T.
pose proof (stable_warm net s1 s2 _ T V) as ->.
split; [reflexivity|].
pose proof (load_root_warm net s1 T) as L1.
rewrite weekly_after_load in W.
destruct (load_root net s) as [[[]|err] s0] eqn:L; [|discriminate].
assert (s0 = s1) as ->.
{ destruct (root s0) as [e|]; [|discriminate].
  destruct (find "versioning/latest" e); [|discriminate].
  now injection W. }
split; [|split; [|exact V]].
- rewrite stable_after_load, L.
  rewrite stable_after_load, L1 in V. exact V.
- rewrite weekly_after_load, L1. exact W.
Qed.

Lemma weekly_raises (s s' : state) (e : exn) :
get_latest_weekly_version net s = (Raise e, s') -> is_URLError e = false.
Proof.
rewrite weekly_after_load.
destruct (load_root net s) as [[[]|err] s0] eqn:L.
- destruct (root s0) as [d|];
    [destruct (find "versioning/latest" d)|];
    intros H; try discriminate; now injection H as <- _.
- intros H. injection H as <- _. exact (load_root_raises s s0 err L).
Qed.

Lemma stable_raises (s s' : state) (e : exn) :
get_latest_stable_version net s = (Raise e, s') -> is_URLError e = false.
Proof.
rewrite stable_after_load.
destruct (load_root net s) as [[[]|err] s0] eqn:L.
- destruct (root s0) as [d|]; [|intros H; now injection H as <- _].
  destruct (stable_filter _) as [l|err] eqn:F.
  + destruct (sort_key_reverse as_version l) as [[|x r]|err] eqn:S;
      intros H; try discriminate; injection H as <- _; [reflexivity|].
    now rewrite (sort_key_reverse_raises l err S).
  + intros H. injection H as <- _.
    now destruct (stable_filter_raises _ err F) as [-> _].
- intros H. injection H as <- _. exact (load_root_raises s s0 err L).
Qed.

Lemma create_endpoints_raises (hostname : string) (s s' : state) (e : exn) :
create_endpoints net hostname s = (Raise e, s') -> is_URLError e = false.
Proof.
rewrite create_endpoints_after_weekly.
destruct (get_latest_weekly_version net s) as [[w|err] s0] eqn:Ew.
- destruct (get_latest_stable_version net s0) as [[v|err] s3] eqn:Ev;
    cbn [fst]; [discriminate|].
  intros H. injection H as <- _. exact (stable_raises s0 s3 err Ev).
- intros H. injection H as <- <-. exact (weekly_raises s s0 err Ew).
Qed.

Lemma create_endpoints_ok_table (hostname : string) (s s1 : state)
(endpoints : gmap string string) :
create_endpoints net hostname s = (Ok endpoints, s1) ->
exists w v, endpoints = endpoints_dict hostname w v.
Proof.
rewrite create_endpoints_after_weekly.
destruct (get_latest_weekly_version net s) as [[w|err] s0]; [|discriminate].
destruct (fst (get_latest_stable_version net s0)) as [v|err];
  [|discriminate].
intros H. injection H as <- _. now exists w, v.
Qed.

(** X2. A lookup never raises a [URLError], hence never an [HTTPError], and
  neither does [create_endpoints]: an error of the network while the
  metadata is fetched ends in a warning, and what the caller sees is
  another exception. *)
Theorem lookups_never_raise_URLError (s s' : state) (e : exn) :
(get_latest_weekly_version net s = (Raise e, s') -> is_URLError e = false)
/\ (get_latest_stable_version net s = (Raise e, s') ->
    is_URLError e = false)
/\ (forall hostname,
       create_endpoints net hostname s = (Raise e, s') ->
       is_URLError e = false).
Proof.
split; [apply weekly_raises | split; [apply stable_raises|]].
intros hostname. apply create_endpoints_raises.
Qed.

(** X3. Whenever the stable lookup returns a version, a document with
  children is in [self.root], and the version is the text of one of its
  version entries, has exactly two separators and has a key; whenever the
  weekly lookup returns, what it returns is the text of the first
  [versioning/latest] entry of the document in [self.root]. *)
Theorem lookups_return_document_texts (s s' : state) :
(forall v,
    get_latest_stable_version net s = (Ok v, s') ->
    exists d,
      root s' = Some d /\ element_bool d = true
      /\ In (Some v) (version_texts d)
      /\ Py.count "." v = 2%nat /\ has_key v)
/\ (forall w,
       get_latest_weekly_version net s = (Ok w, s') ->
       exists d latest,
         root s' = Some d /\ element_bool d = true
         /\ find "versioning/latest" d = Some latest /\ w = text latest).
Proof.
split.
- intros v. rewrite stable_after_load.
  destruct (load_root net s) as [[[]|err] s0]; [|discriminate].
  destruct (root s0) as [d|] eqn:R; [|discriminate].
  fold (version_texts d).
  destruct (stable_filter (version_texts d)) as [l|err] eqn:F;
    [|discriminate].
  destruct (sort_key_reverse as_version l) as [[|x r]|err] eqn:S;
    try discriminate.
  intros H. injection H as -> <-. exists d.
  destruct (stable_filter_ok _ l F) as (l0 & E & ->).
  pose proof (sort_key_reverse_ok _ _ S) as K.
  destruct (sort_key_reverse_descending _ K) as (l' & S' & P & _).
  rewrite S in S'. injection S' as <-.
  assert (I : In v (List.filter two_dots l0)).
  { apply (Permutation_in _ P). now left. }
  pose proof I as I'. apply filter_In in I' as [I0 T].
  split; [exact R|]. split.
  + unfold element_bool. destruct (children d) as [|c cs] eqn:C;
      [|reflexivity].
    unfold version_texts in E. rewrite (findall_childless _ d C) in E.
    destruct l0; [easy | discriminate].
  + split; [rewrite E; now apply in_map|].
    split; [now apply Nat.eqb_eq in T|].
    rewrite List.Forall_forall in K. now apply K.
- intros w. rewrite weekly_after_load.
  destruct (load_root net s) as [[[]|err] s0]; [|discriminate].
  destruct (root s0) as [d|] eqn:R; [|discriminate].
  destruct (find "versioning/latest" d) as [latest|] eqn:F; [|discriminate].
  intros H. injection H as <- <-. exists d, latest.
  split; [exact R|]. split; [|now split].
  pose proof (find_latest_truthy d latest F) as T.
  unfold not_root in T. now apply negb_false_iff in T.
Qed.

End MoreLookups.

Lemma lookups_any_order_witness :
  let loaded := mkState (Some sample_doc) [Urlopen metadata_url] in
  get_latest_stable_version sample_net fresh = (Ok "2.390.1", loaded)
  /\ get_latest_weekly_version sample_net loaded = (Ok (Some "2.401"), loaded)
  /\ get_latest_stable_version sample_net loaded = (Ok "2.390.1", loaded).
Proof.
  cbv zeta.
  exact (proj2 (lookups_any_order sample_net fresh
                  (mkState (Some sample_doc) [Urlopen metadata_url])
                  (mkState (Some sample_doc) [Urlopen metadata_url])
                  (Some "2.401") "2.390.1" eq_refl eq_refl)).
Defined.

Lemma lookups_never_raise_URLError_witness :
  is_URLError AttributeError = false.
Proof.
  exact (proj1 (lookups_never_raise_URLError unreachable_net fresh
                  (mkState None
                     [Warning ("Error when building tree from metadata url: "
                               ++ str_exn (URLError "[Errno -2] Name or service not known"));
                      Urlopen metadata_url])
                  AttributeError) eq_refl).
Defined.

Lemma lookups_return_document_texts_witness :
  (exists d,
      Some sample_doc = Some d /\ element_bool d = true
      /\ In (Some "2.390.1") (version_texts d)
      /\ Py.count "." "2.390.1" = 2%nat /\ has_key "2.390.1")
  /\ (exists d latest,
         Some sample_doc = Some d /\ element_bool d = true
         /\ find "versioning/latest" d = Some latest
         /\ Some "2.401" = text latest).
Proof.
  destruct (lookups_return_document_texts sample_net fresh
              (mkState (Some sample_doc) [Urlopen metadata_url])) as [V W].
  split; [exact (V "2.390.1" eq_refl) | exact (W (Some "2.401") eq_refl)].
Defined.

(** ** A run of the check, event by event *)

Section Trace.

Variable net : nat -> string -> reply.

(** What the prober returns and logs, case by case. *)
Lemma is_exist_outcome (distribution url : string) (s s1 : state)
(r : result Z) :
is_exist net distribution url s = (r, s1) ->
root s1 = root s
/\ ((exists v, r = Ok v /\ (v = 0 \/ v = 1)
               /\ (log s1 = Urlopen url :: log s
                   \/ exists m, log s1 = Print m :: Urlopen url :: log s))
    \/ (exists e, r = Raise e /\ is_HTTPError e = false
                  /\ log s1 = Urlopen url :: log s)).
Proof.
unfold is_exist, try_except, bind, urlopen, print, emit, ret.
destruct (net (opens (log s)) url) as [c b|err]; cbn [fst].
- destruct (negb (c =? 200)); intros H; injection H as <- <-;
    (split; [reflexivity|]); left; exists 1;
    (split; [reflexivity|]); (split; [now right|]);
    [right; eexists; reflexivity | now left].
- destruct (is_HTTPError err) eqn:E.
  + destruct (exn_code err =? 404); intros H; injection H as <- <-;
      (split; [reflexivity|]); left; exists 0;
      (split; [reflexivity|]); (split; [now left|]);
      right; eexists; reflexivity.
  + intros H; injection H as <- <-. split; [reflexivity|].
    right. exists err. now repeat split.
Qed.

(** The shape of the log a run of [check] leaves after [create_endpoints]:
  nothing when the table or the [package] key is missing; the two warnings
  for a package without entry; otherwise the warning, the probe, its
  diagnostic if any, and the gauge if the prober returned. *)
Lemma check_trace (instance : gmap string string) (s s' : state)
(r : result unit) :
check net instance s = (r, s') ->
exists r1 s1,
  create_endpoints net default_hostname s = (r1, s1)
  /\ root s' = root s1
  /\ ((log s' = log s1
       /\ match r1 with
          | Raise e => r = Raise e
          | Ok _ => r = Raise KeyError /\ instance !! "package" = None
          end)
      \/ exists package endpoints,
          r1 = Ok endpoints /\ instance !! "package" = Some package
          /\ ((endpoints !! package = None /\ r = Ok tt
               /\ log s'
                  = Warning ("PackageCanDownload: Package " ++ package
                             ++ " is not supported")
                    :: Warning ("PackageAvailable: " ++ package) :: log s1)
              \/ exists url probe,
                  endpoints !! package = Some url
                  /\ url <> metadata_url
                  /\ (probe = [Urlopen url]
                      \/ exists m, probe = [Print m; Urlopen url])
                  /\ ((exists v,
                          r = Ok tt /\ (v = 0 \/ v = 1)
                          /\ log s'
                             = Gauge "jenkins.package.available" v
                                 ["package:" ++ package]
                               :: List.app probe
                                    (Warning ("PackageAvailable: "
                                              ++ package) :: log s1))
                      \/ (exists e,
                             r = Raise e /\ is_HTTPError e = false
                             /\ probe = [Urlopen url]
                             /\ log s'
                                = List.app probe
                                    (Warning ("PackageAvailable: "
                                              ++ package) :: log s1))))).
Proof.
destruct (create_endpoints net default_hostname s) as [[endpoints|err] s1]
  eqn:E.
- destruct (instance !! "package") as [package|] eqn:I.
  + rewrite (check_after_endpoints net instance package s s1 endpoints I E).
    cbv zeta. intros H. exists (Ok endpoints), s1.
    split; [reflexivity|].
    destruct (endpoints !! package) as [url|] eqn:U.
    * assert (N : url <> metadata_url).
      { rewrite create_endpoints_after_weekly in E.
        destruct (get_latest_weekly_version net s) as [[w|e] s0];
          [|discriminate].
        destruct (fst (get_latest_stable_version net s0)) as [v|e];
          [|discriminate].
        injection E as <- _.
        exact (endpoint_not_metadata w v package url U). }
      destruct (is_exist net package url _) as [r3 s3] eqn:X.
      destruct (is_exist_outcome package url _ s3 r3 X)
        as [R [(v & -> & V & L)|(e & -> & NE & L)]].
      -- injection H as <- <-. cbn [logged root log].
         split; [exact R|]. right. exists package, endpoints.
         split; [reflexivity|]. split; [reflexivity|]. right.
         destruct L as [L|[m L]]; rewrite L.
         ++ exists url, [Urlopen url]. split; [exact U|].
            split; [exact N|]. split; [now left|]. left. exists v.
            now repeat split.
         ++ exists url, [Print m; Urlopen url]. split; [exact U|].
            split; [exact N|]. split; [right; now exists m|]. left.
            exists v. now repeat split.
      -- injection H as <- <-. split; [exact R|]. right.
         exists package, endpoints.
         split; [reflexivity|]. split; [reflexivity|]. right.
         exists url, [Urlopen url]. split; [exact U|].
         split; [exact N|]. split; [now left|]. right. exists e.
         rewrite L. now repeat split.
    * injection H as <- <-. split; [reflexivity|]. right.
      exists package, endpoints. split; [reflexivity|].
      split; [reflexivity|]. left. now repeat split.
  + unfold check, bind. rewrite E. unfold lift. rewrite I.
    intros H. injection H as <- <-. exists (Ok endpoints), s1.
    split; [reflexivity|]. split; [reflexivity|]. left. now repeat split.
- unfold check, bind. rewrite E. intros H. injection H as <- <-.
  exists (Raise err), s1. split; [reflexivity|]. split; [reflexivity|].
  left. now split.
Qed.

(** What [create_endpoints] leaves in the log: nothing with a document at
  hand, else the fetch and at most a warning. *)
Lemma create_endpoints_trace (hostname : string) (s s1 : state)
(r : result (gmap string string)) :
create_endpoints net hostname s = (r, s1) ->
(not_root (root s) = false /\ s1 = s)
\/ (not_root (root s) = true
    /\ (log s1 = Urlopen metadata_url :: log s
        \/ exists m, r = Raise AttributeError
                     /\ log s1 = Warning m :: Urlopen metadata_url :: log s)).
Proof.
intros H. destruct (create_endpoints_state net hostname s s1 r H) as [r0 L].
destruct (not_root (root s)) eqn:C.
- right. split; [reflexivity|].
  rewrite (load_root_cold net s C) in L.
  destruct (net (opens (log s)) metadata_url) as [c [d|]|err] eqn:N.
  + injection L as _ <-. now left.
  + injection L as _ <-. now left.
  + destruct (is_URLError err) eqn:U; injection L as _ <-; [|now left].
    right. eexists. split; [|reflexivity].
    assert (W : get_latest_weekly_version net s
                = (Raise AttributeError,
                   mkState None
                     (Warning ("Error when building tree from metadata url: "
                               ++ str_exn err)
                      :: Urlopen metadata_url :: log s))).
    { rewrite weekly_after_load, (load_root_cold net s C), N, U.
      reflexivity. }
    rewrite create_endpoints_after_weekly, W in H. congruence.
- left. split; [reflexivity|].
  rewrite (load_root_warm net s C) in L. now injection L as _ <-.
Qed.

End Trace.

Lemma opens_urlopen (u : string) (l : list event) :
  opens (Urlopen u :: l) = S (opens l).
Proof. reflexivity. Qed.

Lemma opens_app (l1 l2 : list event) :
  opens (l1 ++ l2)%list = (opens l1 + opens l2)%nat.
Proof. unfold opens. now rewrite List.filter_app, length_app. Qed.

Lemma gauges_app (l1 l2 : list event) :
  gauges (l1 ++ l2)%list = (gauges l1 ++ gauges l2)%list.
Proof. unfold gauges. apply List.filter_app. Qed.

Lemma warnings_app (l1 l2 : list event) :
  warnings (l1 ++ l2)%list = (warnings l1 ++ warnings l2)%list.
Proof. unfold warnings. apply List.filter_app. Qed.

(** ** The two calls of the network *)

Section Calls.

Variable net : nat -> string -> reply.

(** X16. Whatever [urlopen] meets, the prober opens its URL exactly once,
  leaves [self.root] alone and emits neither gauge nor warning. It returns
  1 exactly when [urlopen] returns a response, whatever the status code,
  and 0 exactly when [urlopen] raises an [HTTPError]; it raises exactly
  when [urlopen] raises another exception, and then that exception. *)
Theorem is_exist_one_call (distribution url : string) (s s1 : state)
(r : result Z) :
is_exist net distribution url s = (r, s1) ->
root s1 = root s
/\ opened_urls (log s1) = url :: opened_urls (log s)
/\ gauges (log s1) = gauges (log s)
/\ warnings (log s1) = warnings (log s)
/\ (r = Ok 1 <-> exists c body, net (opens (log s)) url = Opened c body)
/\ (r = Ok 0 <->
    exists err, net (opens (log s)) url = Failed err
                /\ is_HTTPError err = true)
/\ (forall e, r = Raise e <->
              net (opens (log s)) url = Failed e /\ is_HTTPError e = false).
Proof.
intros H.
destruct (is_exist_outcome net distribution url s s1 r H) as [R O].
split; [exact R|].
assert (L : opened_urls (log s1) = url :: opened_urls (log s)
            /\ gauges (log s1) = gauges (log s)
            /\ warnings (log s1) = warnings (log s)).
{ destruct O as [(v & _ & _ & [L|[m L]])|(e & _ & _ & L)]; rewrite L;
    now repeat split. }
destruct L as (L1 & L2 & L3).
repeat (split; [assumption|]). clear R O L1 L2 L3.
revert H. unfold is_exist, try_except, bind, urlopen, print, emit, ret.
destruct (net (opens (log s)) url) as [c b|err]; cbn [fst].
- destruct (negb (c =? 200)); intros H; injection H as <- _;
    (split; [split; [intros _; now exists c, b | reflexivity]|]);
    (split; [split; [discriminate | now intros (? & ? & _)]|]);
    intros e; (split; [discriminate | now intros [? _]]).
- destruct (is_HTTPError err) eqn:E.
  + destruct (exn_code err =? 404); intros H; injection H as <- _;
      (split; [split; [discriminate | now intros (? & ? & ?)]|]);
      (split; [split; [intros _; now exists err | reflexivity]|]);
      intros e; (split; [discriminate|]);
      intros [Q N]; injection Q as ->; congruence.
  + intros H; injection H as <- _.
    split; [split; [discriminate | now intros (? & ? & ?)]|].
    split; [split; [discriminate|]|].
    * intros (e' & Q & N). injection Q as <-. congruence.
    * intros e. split.
      -- intros Q. injection Q as <-. now split.
      -- intros [Q _]. now injection Q as ->.
Qed.

(** X17. [build_tree] opens the given URL exactly once and does not touch
  [self.root]. It returns the root of the document exactly when [urlopen]
  returns a response whose body is a document, and [None], after one
  warning, exactly when [urlopen] raises a [URLError], an [HTTPError]
  included; it never raises a [URLError], and emits no gauge. *)
Theorem build_tree_outcomes (metadataUrl : string) (s s1 : state)
(r : result (option Element)) :
build_tree net metadataUrl s = (r, s1) ->
root s1 = root s
/\ opened_urls (log s1) = metadataUrl :: opened_urls (log s)
/\ gauges (log s1) = gauges (log s)
/\ (forall e, r = Ok (Some e) <->
              exists c, net (opens (log s)) metadataUrl = Opened c (Some e))
/\ (r = Ok None <->
    exists err, net (opens (log s)) metadataUrl = Failed err
                /\ is_URLError err = true)
/\ (r = Ok None ->
    exists m, log s1 = Warning m :: Urlopen metadataUrl :: log s)
/\ (forall e, r = Raise e -> is_URLError e = false).
Proof.
unfold build_tree, try_except, bind, urlopen, ET_parse, warning, emit,
  ret, raise.
destruct (net (opens (log s)) metadataUrl) as [c [d|]|err]; cbn [snd].
- intros H. injection H as <- <-. repeat (split; [reflexivity|]).
  split; [|split; [|split]].
  + intros e. split.
    * intros Q. injection Q as <-. now exists c.
    * intros (c' & Q). now injection Q as _ <-.
  + split; [discriminate | now intros (? & ? & _)].
  + discriminate.
  + discriminate.
- intros H. injection H as <- <-. repeat (split; [reflexivity|]).
  split; [|split; [|split]].
  + intros e. split; [discriminate | now intros (? & ?)].
  + split; [discriminate | now intros (? & ? & _)].
  + discriminate.
  + intros e Q. now injection Q as <-.
- destruct (is_URLError err) eqn:U; intros H; injection H as <- <-;
    repeat (split; [reflexivity|]); (split; [|split; [|split]]).
  + intros e. split; [discriminate | now intros (? & ?)].
  + split; [intros _; now exists err | reflexivity].
  + intros _. eexists. reflexivity.
  + discriminate.
  + intros e. split; [discriminate | now intros (? & ?)].
  + split; [discriminate|]. intros (e' & Q & N). injection Q as <-.
    congruence.
  + discriminate.
  + intros e Q. now injection Q as <-.
Qed.

End Calls.

Lemma is_exist_one_call_witness :
  root (snd (is_exist sample_net "debian"
               "https://get.jenkins.io/debian/jenkins_2.401_all.deb" fresh))
  = None
  /\ exists c body,
      sample_net 0 "https://get.jenkins.io/debian/jenkins_2.401_all.deb"
      = Opened c body.
Proof.
  destruct (is_exist_one_call sample_net "debian"
              "https://get.jenkins.io/debian/jenkins_2.401_all.deb" fresh
              (snd (is_exist sample_net "debian"
                      "https://get.jenkins.io/debian/jenkins_2.401_all.deb"
                      fresh))
              (Ok 1) eq_refl) as (R & _ & _ & _ & A & _).
  split; [exact R | exact (proj1 A eq_refl)].
Defined.

Lemma build_tree_outcomes_witness :
  (exists err, unreachable_net 0 metadata_url = Failed err
               /\ is_URLError err = true)
  /\ exists m,
      log (snd (build_tree unreachable_net metadata_url fresh))
      = [Warning m; Urlopen metadata_url].
Proof.
  destruct (build_tree_outcomes unreachable_net metadata_url fresh
              (snd (build_tree unreachable_net metadata_url fresh))
              (Ok None) eq_refl) as (_ & _ & _ & _ & A & B & _).
  split; [exact (proj1 A eq_refl) | exact (B eq_refl)].
Defined.

(** ** What a run of the check does and never does *)

Lemma opened_urls_app (l1 l2 : list event) :
  opened_urls (l1 ++ l2)%list = (opened_urls l1 ++ opened_urls l2)%list.
Proof. unfold opened_urls. apply omap_app. Qed.

Section Runs.

Variable net : nat -> string -> reply.

(** A table that is built is the table of the versions the two lookups of
  this run return, the second on the state the first leaves. *)
Lemma create_endpoints_ok_versions (hostname : string) (s s1 : state)
(endpoints : gmap string string) :
create_endpoints net hostname s = (Ok endpoints, s1) ->
exists w v,
  get_latest_weekly_version net s = (Ok w, s1)
  /\ get_latest_stable_version net s1 = (Ok v, s1)
  /\ endpoints = endpoints_dict hostname w v.
Proof.
rewrite create_endpoints_after_weekly.
destruct (get_latest_weekly_version net s) as [[w|err] s0] eqn:W;
  [|discriminate].
destruct (get_latest_stable_version net s0) as [r2 s2] eqn:V.
pose proof (stable_warm net s0 s2 r2 (weekly_ok_root net s s0 w W) V) as ->.
cbn [fst]. destruct r2 as [v|err]; [|discriminate].
intros H. injection H as <- <-. now exists w, v.
Qed.

(** X4. A run of [check] calls [urlopen] at most twice, and only for the
  metadata URL and for the URL that the table built in this run, the table
  of the versions its two lookups return, gives the requested package; the
  metadata URL comes first. With a document at hand at most the package
  URL is opened. *)
Theorem check_opens_two_urls (instance : gmap string string) (s s' : state)
(r : result unit) :
check net instance s = (r, s') ->
exists probe fetch,
  opened_urls (log s') = (probe ++ fetch ++ opened_urls (log s))%list
  /\ (fetch = [] \/ fetch = [metadata_url] /\ not_root (root s) = true)
  /\ (probe = []
      \/ exists package endpoints s1 w v url,
          probe = [url] /\ url <> metadata_url
          /\ instance !! "package" = Some package
          /\ create_endpoints net default_hostname s = (Ok endpoints, s1)
          /\ get_latest_weekly_version net s = (Ok w, s1)
          /\ get_latest_stable_version net s1 = (Ok v, s1)
          /\ endpoints = endpoints_dict default_hostname w v
          /\ endpoints !! package = Some url)
  /\ (opens (log s') <= 2 + opens (log s))%nat.
Proof.
intros H.
destruct (check_trace net instance s s' r H) as (r1 & s1 & E & _ & T).
assert (F : exists fetch,
           opened_urls (log s1) = (fetch ++ opened_urls (log s))%list
           /\ opens (log s1) = (List.length fetch + opens (log s))%nat
           /\ (fetch = []
               \/ fetch = [metadata_url] /\ not_root (root s) = true)).
{ destruct (create_endpoints_trace net _ s s1 r1 E)
    as [(_ & ->)|(C & [L|(m & _ & L)])].
  - exists []. repeat split. now left.
  - exists [metadata_url]. rewrite L. repeat split. now right.
  - exists [metadata_url]. rewrite L. repeat split. now right. }
destruct F as (fetch & F & O & Hf).
assert (P : exists probe,
           opened_urls (log s') = (probe ++ opened_urls (log s1))%list
           /\ opens (log s') = (List.length probe + opens (log s1))%nat
           /\ (probe = []
               \/ exists package endpoints s1 w v url,
                   probe = [url] /\ url <> metadata_url
                   /\ instance !! "package" = Some package
                   /\ create_endpoints net default_hostname s
                      = (Ok endpoints, s1)
                   /\ get_latest_weekly_version net s = (Ok w, s1)
                   /\ get_latest_stable_version net s1 = (Ok v, s1)
                   /\ endpoints = endpoints_dict default_hostname w v
                   /\ endpoints !! package = Some url)).
{ destruct T as [(L & _)|(package & endpoints & -> & I & T)].
  - exists []. rewrite L. repeat split. now left.
  - destruct T as [(_ & _ & L)|(url & probe & U & N & Hp & T)].
    + exists []. rewrite L. repeat split. now left.
    + destruct (create_endpoints_ok_versions _ s s1 endpoints E)
        as (w & v & W & V & D).
      exists [url]. 
      assert (R : (probe = [Urlopen url]
                   \/ exists m, probe = [Print m; Urlopen url]) ->
                  forall l, opened_urls (probe ++ l)%list
                            = url :: opened_urls l
                            /\ opens (probe ++ l)%list = S (opens l)).
      { intros [->|[m ->]] l; now split. }
      destruct T as [(x & _ & _ & L)|(e & _ & _ & _ & L)]; rewrite L.
      * change (opened_urls (Gauge ?m x ?t :: ?l)) with (opened_urls l).
        change (opens (Gauge "jenkins.package.available" x
                         ["package:" ++ package]
                       :: (probe ++ Warning ("PackageAvailable: " ++ package)
                                    :: log s1)%list))
          with (opens (probe ++ Warning ("PackageAvailable: " ++ package)
                             :: log s1)%list).
        destruct (R Hp (Warning ("PackageAvailable: " ++ package) :: log s1))
          as [-> ->].
        repeat split. right. now exists package, endpoints, s1, w, v, url.
      * destruct (R Hp (Warning ("PackageAvailable: " ++ package) :: log s1))
          as [-> ->].
        repeat split. right. now exists package, endpoints, s1, w, v, url. }
destruct P as (probe & P & O' & Hp).
exists probe, fetch. rewrite P, F. split; [reflexivity|].
split; [exact Hf|]. split; [exact Hp|].
rewrite O', O.
assert (List.length fetch <= 1)%nat
  by (destruct Hf as [->|[-> _]]; simpl; lia).
assert (List.length probe <= 1)%nat
  by (destruct Hp as [->|(? & ? & ? & ? & ? & ? & -> & _)]; simpl; lia).
lia.
Qed.

(** X5. A run of [check] never emits more than one gauge. A run that raises
  emits none, and so does a run for a package without entry in the table.
  A gauge that is emitted is [jenkins.package.available], tagged with the
  requested package, which is one of the ten supported ones, and its value
  is 0 or 1. *)
Theorem check_at_most_one_gauge (instance : gmap string string)
(s s' : state) (r : result unit) :
check net instance s = (r, s') ->
(gauges (log s') = gauges (log s)
 /\ (r = Ok tt ->
     exists package,
       instance !! "package" = Some package
       /\ package ∉ supported_packages))
\/ (r = Ok tt
    /\ exists package v,
        instance !! "package" = Some package
        /\ package ∈ supported_packages
        /\ (v = 0 \/ v = 1)
        /\ gauges (log s')
           = Gauge "jenkins.package.available" v ["package:" ++ package]
             :: gauges (log s)).
Proof.
intros H.
destruct (check_trace net instance s s' r H) as (r1 & s1 & E & _ & T).
pose proof (create_endpoints_gauges net _ s s1 r1 E) as G.
assert (R : forall url probe l,
           (probe = [Urlopen url]
            \/ exists m, probe = [Print m; Urlopen url]) ->
           gauges (probe ++ l)%list = gauges l).
{ intros url probe l [->|[m ->]]; reflexivity. }
destruct T as [(L & Hr)|(package & endpoints & -> & I & T)].
- left. rewrite L. split; [exact G|].
  intros ->. destruct r1; [now destruct Hr | discriminate].
- destruct (create_endpoints_ok_table net _ s s1 endpoints E)
    as (w & v & ->).
  destruct T as [(U & _ & L)|(url & probe & U & _ & Hp & T)].
  + left. rewrite L. split; [exact G|]. intros _. exists package.
    split; [exact I|].
    rewrite (endpoints_supported default_hostname w v), U.
    now intros [? ?].
  + assert (S : package ∈ supported_packages).
    { rewrite (endpoints_supported default_hostname w v), U. now eexists. }
    destruct T as [(x & -> & X & L)|(e & -> & _ & _ & L)].
    * right. split; [reflexivity|]. exists package, x.
      split; [exact I|]. split; [exact S|]. split; [exact X|].
      rewrite L. cbn [gauges List.filter].
      fold (gauges (probe ++ Warning ("PackageAvailable: " ++ package)
                           :: log s1)%list).
      rewrite (R url probe _ Hp). cbn [gauges List.filter].
      fold (gauges (log s1)). now rewrite G.
    * left. rewrite L, (R url probe _ Hp). cbn [gauges List.filter].
      fold (gauges (log s1)). split; [exact G | discriminate].
Qed.

(** X6. A run of [check] never raises an [HTTPError]: the one of the
  metadata fetch ends in a warning, the one of the probe in the value 0. *)
Theorem check_never_raises_HTTPError (instance : gmap string string)
(s s' : state) (e : exn) :
check net instance s = (Raise e, s') -> is_HTTPError e = false.
Proof.
intros H.
destruct (check_trace net instance s s' _ H) as (r1 & s1 & E & _ & T).
destruct T as [(L & Hr)|(package & endpoints & -> & I & T)].
- destruct r1 as [endpoints|err].
  + destruct Hr as [Hr _]. now injection Hr as ->.
  + injection Hr as ->.
    pose proof (create_endpoints_raises net _ s s1 err E) as U.
    now destruct err.
- destruct T as [(_ & Hr & _)|(url & probe & _ & _ & _ & T)];
    [discriminate|].
  destruct T as [(x & Hr & _)|(e' & Hr & NE & _)]; [discriminate|].
  now injection Hr as ->.
Qed.

(** X7. A run of [check] that starts without a document with children in
  [self.root] fetches the metadata exactly once, whatever comes of it; and
  it leaves such a document in [self.root] exactly when the fetch met a
  response whose body is a document with children. After a failed fetch,
  a body that is no document, or a document without children, the next run
  fetches again. *)
Theorem cold_run_fetch (instance : gmap string string) (s s' : state)
(r : result unit) :
not_root (root s) = true ->
check net instance s = (r, s') ->
fetches (log s') = S (fetches (log s))
/\ (not_root (root s') = false <->
    exists c e,
      net (opens (log s)) metadata_url = Opened c (Some e)
      /\ element_bool e = true).
Proof.
intros C H.
destruct (check_state net instance s s' r H) as (r1 & s1 & E & R & F).
destruct (create_endpoints_state net _ s s1 r1 E) as [r0 L].
rewrite F, R. clear H E R F.
rewrite (load_root_cold net s C) in L.
destruct (net (opens (log s)) metadata_url) as [c [d|]|err].
- injection L as _ <-. cbn [log root]. split; [reflexivity|].
  unfold not_root. rewrite negb_false_iff. split.
  + intros B. now exists c, d.
  + intros (c' & e & Q & B). now injection Q as _ <-.
- injection L as _ <-. cbn [opened log root]. split; [reflexivity|].
  rewrite C. split; [discriminate|]. now intros (c' & e & Q & _).
- destruct (is_URLError err); injection L as _ <-; cbn [opened log root];
    (split; [reflexivity|]); rewrite ?C;
    (split; [discriminate|]); now intros (c' & e & Q & _).
Qed.

(** X8. A configuration without the key [package] makes every run raise,
  [KeyError] when the table could be built and the exception of
  [create_endpoints] otherwise; the key is only read after the table is
  built, so that a run without document fetches the metadata all the same.
  No gauge is emitted. *)
Theorem check_without_package (instance : gmap string string)
(s s' : state) (r : result unit) :
instance !! "package" = None ->
check net instance s = (r, s') ->
(exists r1,
    create_endpoints net default_hostname s = (r1, s')
    /\ r = match r1 with
           | Ok _ => Raise KeyError
           | Raise e => Raise e
           end)
/\ r <> Ok tt
/\ gauges (log s') = gauges (log s)
/\ (not_root (root s) = true -> fetches (log s') = S (fetches (log s))).
Proof.
intros I H.
assert (X : exists r1,
           create_endpoints net default_hostname s = (r1, s')
           /\ r = match r1 with
                  | Ok _ => Raise KeyError
                  | Raise e => Raise e
                  end).
{ unfold check, bind, lift in H. rewrite I in H.
  destruct (create_endpoints net default_hostname s) as [[t|e] s1];
    injection H as <- <-; eexists; split; reflexivity. }
destruct X as (r1 & E & ->).
split; [now exists r1|].
split; [now destruct r1|].
split; [exact (create_endpoints_gauges net _ s s' r1 E)|].
intros C. destruct (create_endpoints_state net _ s s' r1 E) as [r0 L].
destruct (load_root_effect net s s' r0 L)
  as [(C' & _)|(_ & [->|[m ->]])]; [congruence|reflexivity..].
Qed.

(** X9. A [latest] entry without text is no error: the weekly lookup
  returns [None], and the table is built with the text "None" in the place
  of the weekly version, so that the check probes URLs such as
  [https://get.jenkins.io/war/None/jenkins.war]. The stable entries are
  not affected. *)
Theorem empty_latest_text (s s1 : state) (d latest : Element) (v : string) :
load_root net s = (Ok tt, s1) ->
root s1 = Some d ->
find "versioning/latest" d = Some latest ->
text latest = None ->
get_latest_stable_version net s1 = (Ok v, s1) ->
get_latest_weekly_version net s = (Ok None, s1)
/\ exists table,
    create_endpoints net default_hostname s = (Ok table, s1)
    /\ table !! "debian"
       = Some "https://get.jenkins.io/debian/jenkins_None_all.deb"
    /\ table !! "redhat"
       = Some "https://get.jenkins.io/redhat/jenkins-None-1.1.noarch.rpm"
    /\ table !! "opensuse"
       = Some "https://get.jenkins.io/opensuse/jenkins-None-1.2.noarch.rpm"
    /\ table !! "windows"
       = Some "https://get.jenkins.io/windows/None/jenkins.msi"
    /\ table !! "war"
       = Some "https://get.jenkins.io/war/None/jenkins.war"
    /\ table !! "war-stable"
       = Some ("https://get.jenkins.io/war-stable/" ++ v ++ "/jenkins.war").
Proof.
intros L R F T V.
assert (W : get_latest_weekly_version net s = (Ok None, s1)).
{ now rewrite weekly_after_load, L, R, F, T. }
split; [exact W|].
exists (endpoints_dict default_hostname None v).
split; [rewrite create_endpoints_after_weekly, W; cbn [fst]; now rewrite V|].
unfold endpoints_dict, default_hostname.
cbn [Py.fmt list_to_map foldr uncurry fst snd].
repeat split; by simplify_map_eq.
Qed.

End Runs.

Lemma check_opens_two_urls_witness :
  exists probe fetch,
    opened_urls (log (snd (check sample_net war_instance fresh)))
    = (probe ++ fetch ++ opened_urls (log fresh))%list
    /\ (fetch = [] \/ fetch = [metadata_url] /\ not_root (root fresh) = true)
    /\ (probe = []
        \/ exists package endpoints s1 w v url,
            probe = [url] /\ url <> metadata_url
            /\ war_instance !! "package" = Some package
            /\ create_endpoints sample_net default_hostname fresh
               = (Ok endpoints, s1)
            /\ get_latest_weekly_version sample_net fresh = (Ok w, s1)
            /\ get_latest_stable_version sample_net s1 = (Ok v, s1)
            /\ endpoints = endpoints_dict default_hostname w v
            /\ endpoints !! package = Some url)
    /\ (opens (log (snd (check sample_net war_instance fresh)))
        <= 2 + opens (log fresh))%nat.
Proof.
  exact (check_opens_two_urls sample_net war_instance fresh
           (snd (check sample_net war_instance fresh)) (Ok tt) eq_refl).
Defined.

Lemma check_at_most_one_gauge_witness :
  (gauges (log (snd (check sample_net zip_instance fresh)))
   = gauges (log fresh)
   /\ (Ok tt = Ok tt ->
       exists package,
         zip_instance !! "package" = Some package
         /\ package ∉ supported_packages))
  \/ (Ok tt = Ok tt
      /\ exists package v,
          zip_instance !! "package" = Some package
          /\ package ∈ supported_packages
          /\ (v = 0 \/ v = 1)
          /\ gauges (log (snd (check sample_net zip_instance fresh)))
             = Gauge "jenkins.package.available" v ["package:" ++ package]
               :: gauges (log fresh)).
Proof.
  exact (check_at_most_one_gauge sample_net zip_instance fresh
           (snd (check sample_net zip_instance fresh)) (Ok tt) eq_refl).
Defined.

Lemma check_never_raises_HTTPError_witness :
  is_HTTPError (URLError "[Errno 111] Connection refused") = false.
Proof.
  exact (check_never_raises_HTTPError probe_down_net war_instance fresh
           (snd (check probe_down_net war_instance fresh))
           (URLError "[Errno 111] Connection refused") eq_refl).
Defined.

Lemma cold_run_fetch_witness :
  fetches (log (snd (check childless_net war_instance fresh))) = 1%nat
  /\ not_root (root (snd (check childless_net war_instance fresh))) = true.
Proof.
  destruct (cold_run_fetch childless_net war_instance fresh
              (snd (check childless_net war_instance fresh))
              (Raise AttributeError) eq_refl eq_refl) as [F C].
  split; [exact F|].
  destruct (not_root _) eqn:N; [reflexivity|].
  destruct (proj1 C eq_refl) as (c & e & Q & B).
  injection Q as _ <-. discriminate B.
Defined.

Lemma check_without_package_witness :
  (exists r1,
      create_endpoints sample_net default_hostname fresh
      = (r1, mkState (Some sample_doc) [Urlopen metadata_url])
      /\ (Raise KeyError : result unit)
         = match r1 with
           | Ok _ => Raise KeyError
           | Raise e => Raise e
           end)
  /\ Raise KeyError <> Ok tt
  /\ gauges [Urlopen metadata_url] = gauges []
  /\ (not_root None = true -> fetches [Urlopen metadata_url] = 1%nat).
Proof.
  exact (check_without_package sample_net empty_instance fresh
           (mkState (Some sample_doc) [Urlopen metadata_url])
           (Raise KeyError) eq_refl eq_refl).
Defined.

Lemma empty_latest_text_witness :
  get_latest_weekly_version no_latest_text_net fresh
  = (Ok None, mkState (Some no_latest_text_doc) [Urlopen metadata_url]).
Proof.
  exact (proj1 (empty_latest_text no_latest_text_net fresh
                  (mkState (Some no_latest_text_doc) [Urlopen metadata_url])
                  no_latest_text_doc (Elem "latest" None []) "2.390.1"
                  eq_refl eq_refl eq_refl eq_refl eq_refl)).
Defined.

(** ** More on the versions and the sort *)

Lemma version_lt_keys_equal (u u' : string) :
  has_key u -> has_key u' ->
  version_lt u u' = false -> version_lt u' u = false ->
  as_version u = as_version u'.
Proof.
  intros [k K] [k' K']. unfold version_lt. rewrite K, K'.
  intros A B. f_equal. now apply list_lt_total.
Qed.

(** Two descending lists with the same elements are equal when no two
    different elements have the same key. *)
Lemma descending_unique (l1 l2 : list string) :
  descending l1 -> descending l2 -> Permutation l1 l2 ->
  Forall has_key l1 ->
  (forall u u', In u l1 -> In u' l1 ->
                as_version u = as_version u' -> u = u') ->
  l1 = l2.
Proof.
  intros D1. revert l2. induction D1 as [|a r1 D1 IH Ha]; intros l2 D2 P K J.
  - now apply Permutation_nil in P.
  - destruct l2 as [|b r2];
      [symmetry in P; now apply Permutation_nil in P|].
    inversion D2 as [|? ? D2' Hb]; subst.
    inversion K as [|? ? Ka Kr]; subst.
    assert (E : a = b).
    { assert (Ia : In a (b :: r2)) by (apply (Permutation_in _ P); now left).
      assert (Ib : In b (a :: r1))
        by (apply (Permutation_in _ (Permutation_sym P)); now left).
      destruct Ia as [->|Ia]; [reflexivity|].
      destruct Ib as [->|Ib]; [reflexivity|].
      rewrite List.Forall_forall in Ha, Hb, Kr.
      apply J; [now left | now right|].
      apply version_lt_keys_equal;
        [exact Ka | now apply Kr | now apply Ha | now apply Hb]. }
    subst b. f_equal. apply Permutation_cons_inv in P.
    apply IH; try assumption.
    intros u u' Iu Iu'. apply J; now right.
Qed.

(** X10. The order in which the versions are listed does not matter to the
    sort when no two of them have the same key: two lists with the same
    elements, each with a key, are sorted into the same list, and so have
    the same first element. *)
Theorem sort_order_independent (l l' : list string) :
  Permutation l l' ->
  Forall has_key l ->
  (forall u u', In u l -> In u' l -> as_version u = as_version u' -> u = u') ->
  sort_key_reverse as_version l = sort_key_reverse as_version l'.
Proof.
  intros P K J.
  assert (K' : Forall has_key l') by exact (Permutation_Forall P K).
  destruct (sort_key_reverse_descending l K) as (s1 & E1 & P1 & D1 & _).
  destruct (sort_key_reverse_descending l' K') as (s2 & E2 & P2 & D2 & _).
  rewrite E1, E2. f_equal.
  apply descending_unique; try assumption.
  - now rewrite P1, P, <- P2.
  - exact (Permutation_Forall (Permutation_sym P1) K).
  - intros u u' Iu Iu'. apply J; now apply (Permutation_in _ P1).
Qed.

Lemma sort_order_independent_witness :
  sort_key_reverse as_version ["2.389.3"; "2.390.1"; "2.319.rc1"]
  = sort_key_reverse as_version ["2.319.rc1"; "2.389.3"; "2.390.1"].
Proof.
  apply sort_order_independent.
  - apply Permutation_sym.
    exact (Permutation_cons_append ["2.389.3"; "2.390.1"] "2.319.rc1").
  - repeat constructor; eexists; reflexivity.
  - intros u u' [<-|[<-|[<-|[]]]] [<-|[<-|[<-|[]]]]; vm_compute;
      intros H; try reflexivity; discriminate H.
Defined.

(** ** Splitting and joining *)

Lemma join_cons (sep x y : string) (r : list string) :
  join sep (x :: y :: r) = x ++ sep ++ join sep (y :: r).
Proof. reflexivity. Qed.

(** [c.join(s.split(c)) == s] *)
Lemma join_split (c : ascii) (s : string) :
  join (String c "") (Py.split c s) = s.
Proof.
  induction s as [|d r IH]; [reflexivity|].
  cbn [Py.split]. destruct (Ascii.eqb_spec d c) as [->|N].
  - destruct (Py.split c r) as [|y t] eqn:S;
      [now apply split_nonempty in S|].
    rewrite join_cons, IH. reflexivity.
  - destruct (Py.split c r) as [|h t] eqn:S;
      [now apply split_nonempty in S|].
    destruct t as [|y t].
    + cbn [join] in *. now rewrite IH.
    + rewrite join_cons in *. rewrite append_cons. now rewrite IH.
Qed.

(** No part of a split contains the separator. *)
Lemma split_parts (c : ascii) (s : string) :
  Forall (fun part => Py.count c part = 0%nat) (Py.split c s).
Proof.
  induction s as [|d r IH]; [repeat constructor|].
  cbn [Py.split]. destruct (Ascii.eqb d c) eqn:E.
  - constructor; [reflexivity | exact IH].
  - destruct (Py.split c r) as [|h t]; [repeat constructor; simpl; now rewrite E|].
    inversion IH as [|? ? Hh Ht]; subst.
    constructor; [|exact Ht]. cbn [Py.count]. now rewrite E.
Qed.

(** X11. A string the filter keeps unpacks into exactly three parts without
    separator, of which it is the join; so [as_version] raises on it only
    when [int] raises: for a major or a minor that is no integer, or for a
    patch that [isdigit] accepts and [int] does not. *)
Theorem kept_version_unpacks (texts : list (option string))
  (kept : list string) (s : string) :
  stable_filter texts = Ok kept ->
  In s kept ->
  exists major minor patch,
    Py.split "." s = [major; minor; patch]
    /\ s = major ++ "." ++ minor ++ "." ++ patch
    /\ Py.count "." major = 0%nat /\ Py.count "." minor = 0%nat
    /\ Py.count "." patch = 0%nat
    /\ (has_key s <->
        Py.int major <> None /\ Py.int minor <> None
        /\ (Py.isdigit patch = true -> Py.int patch <> None)).
Proof.
  intros F I.
  destruct (stable_filter_ok texts kept F) as (l & _ & ->).
  apply filter_In in I as [_ T]. apply Nat.eqb_eq in T.
  destruct (count_two_split s T) as (major & minor & patch & S).
  exists major, minor, patch. split; [exact S|].
  pose proof (join_split "." s) as J. rewrite S in J.
  pose proof (split_parts "." s) as P. rewrite S in P.
  apply List.Forall_cons_iff in P as [P1 P].
  apply List.Forall_cons_iff in P as [P2 P].
  apply List.Forall_cons_iff in P as [P3 _].
  split; [now rewrite <- J|]. repeat (split; [assumption|]).
  unfold has_key, as_version. rewrite S.
  destruct (Py.int major) as [a|], (Py.int minor) as [b|],
    (Py.isdigit patch), (Py.int patch) as [c|]; cbn;
    split; try (intros [k K]; discriminate K);
    try (intros (A & B & C); congruence);
    try (intros _; repeat split; congruence);
    try (intros _; eexists; reflexivity).
  intros (_ & _ & C). now specialize (C eq_refl).
Qed.

Lemma kept_version_unpacks_witness :
  exists major minor patch,
    Py.split "." "2.390.1" = [major; minor; patch]
    /\ "2.390.1" = major ++ "." ++ minor ++ "." ++ patch
    /\ Py.count "." major = 0%nat /\ Py.count "." minor = 0%nat
    /\ Py.count "." patch = 0%nat
    /\ (has_key "2.390.1" <->
        Py.int major <> None /\ Py.int minor <> None
        /\ (Py.isdigit patch = true -> Py.int patch <> None)).
Proof.
  apply (kept_version_unpacks [Some "2.401"; Some "2.390.1"] ["2.390.1"]);
    [reflexivity | now left].
Defined.

(** ** Documents of plain versions *)

Lemma plain_version_has_key (s : string) :
  plain_version s -> Py.count "." s = 2%nat -> has_key s.
Proof.
  intros P T. destruct (count_two_split s T) as (major & minor & patch & S).
  unfold plain_version in P. rewrite S in P.
  apply List.Forall_cons_iff in P as [P1 P].
  apply List.Forall_cons_iff in P as [P2 P].
  apply List.Forall_cons_iff in P as [P3 _].
  apply (decimal_version_has_key s major minor patch S P1 P2). now left.
Qed.

Section PlainDocuments.

Variable net : nat -> string -> reply.

(** X12. On a document whose version entries are all written as decimal
  numbers separated by dots, each of at most 4300 digits, the length up to
  which [int] reads a literal, the stable lookup raises neither
  [ValueError] nor [AttributeError]: it returns one of the listed versions
  with two separators, which no other such version is above when major,
  minor and patch are compared as integers, or it raises [IndexError] when
  no listed version has two separators. *)
Theorem plain_document_resolves (s s' : state) (d : Element)
(l : list string) :
load_root net s = (Ok tt, s') ->
root s' = Some d ->
version_texts d = map Some l ->
Forall plain_version l ->
(exists v,
    get_latest_stable_version net s = (Ok v, s')
    /\ In v l /\ Py.count "." v = 2%nat
    /\ forall u, In u l -> Py.count "." u = 2%nat -> described_lt v u = false)
\/ (get_latest_stable_version net s = (Raise IndexError, s')
    /\ forall u, In u l -> Py.count "." u <> 2%nat).
Proof.
intros L R T P.
rewrite stable_after_load, L, R. fold (version_texts d).
rewrite T, stable_filter_strings.
assert (K : Forall has_key (List.filter two_dots l)).
{ rewrite List.Forall_forall in P |- *. intros u I.
  apply filter_In in I as [I D]. apply Nat.eqb_eq in D.
  now apply plain_version_has_key; [apply P|]. }
destruct (sort_key_reverse_descending _ K) as (l' & E & Q & _ & H).
rewrite E.
destruct (List.filter two_dots l) as [|x r] eqn:F.
- subst l'. right. split; [reflexivity|].
  intros u I D. apply Nat.eqb_eq in D.
  assert (X : In u (List.filter two_dots l)) by now apply filter_In.
  now rewrite F in X.
- destruct H as (v & rest & pre & post & -> & D & Hpre & Hpost).
  left. exists v.
  assert (I : In v (List.filter two_dots l)).
  { rewrite F, D. apply in_or_app. right. now left. }
  apply filter_In in I as [I V]. apply Nat.eqb_eq in V.
  split; [reflexivity|]. split; [exact I|]. split; [exact V|].
  intros u Iu Du. rewrite <- version_lt_described. apply Nat.eqb_eq in Du.
  assert (X : In u (x :: r)) by (rewrite <- F; now apply filter_In).
  rewrite D in X. apply in_app_or in X as [X|[<-|X]].
  + rewrite List.Forall_forall in Hpre. now apply version_lt_asym, Hpre.
  + apply version_lt_irrefl.
  + rewrite List.Forall_forall in Hpost. now apply Hpost.
Qed.

End PlainDocuments.

Lemma plain_document_resolves_witness :
  (exists v,
      get_latest_stable_version sample_net fresh
      = (Ok v, mkState (Some sample_doc) [Urlopen metadata_url])
      /\ In v ["2.401"; "2.390.1"; "2.390"; "2.389.3"]
      /\ Py.count "." v = 2%nat
      /\ forall u, In u ["2.401"; "2.390.1"; "2.390"; "2.389.3"] ->
                   Py.count "." u = 2%nat -> described_lt v u = false)
  \/ (get_latest_stable_version sample_net fresh
      = (Raise IndexError, mkState (Some sample_doc) [Urlopen metadata_url])
      /\ forall u, In u ["2.401"; "2.390.1"; "2.390"; "2.389.3"] ->
                   Py.count "." u <> 2%nat).
Proof.
  apply (plain_document_resolves sample_net fresh
           (mkState (Some sample_doc) [Urlopen metadata_url]) sample_doc
           ["2.401"; "2.390.1"; "2.390"; "2.389.3"]);
    try reflexivity.
  repeat constructor.
Defined.

(** ** The URLs of the table are different *)

Lemma endpoints_one_url (hostname : string) (w : option string)
  (v p q url : string) :
  endpoints_dict hostname w v !! p = Some url ->
  endpoints_dict hostname w v !! q = Some url ->
  p = q.
Proof.
  unfold endpoints_dict. cbv zeta. intros Hp Hq.
  apply elem_of_list_to_map_2 in Hp, Hq.
  generalize dependent (Py.fmt w). intros rolling Hp Hq.
  repeat (apply elem_of_cons in Hp as [Hp|Hp];
          [apply pair_equal_spec in Hp as [-> ->];
           repeat (apply elem_of_cons in Hq as [Hq|Hq];
                   [apply pair_equal_spec in Hq as [-> Hq];
                    try reflexivity;
                    exfalso;
                    apply String.app_inj in Hq; apply String.app_inj in Hq;
                    cbv [String.append] in Hq; discriminate Hq|]);
           now apply elem_of_nil in Hq|]).
  now apply elem_of_nil in Hp.
Qed.

(** X13. Whatever the host name and the versions are, two different package
    identifiers of the table have different URLs. *)
Theorem endpoints_urls_distinct (hostname : string) (w : option string)
  (v p q url url' : string) :
  p <> q ->
  endpoints_dict hostname w v !! p = Some url ->
  endpoints_dict hostname w v !! q = Some url' ->
  url <> url'.
Proof.
  intros N Hp Hq E. subst url'. apply N.
  exact (endpoints_one_url hostname w v p q url Hp Hq).
Qed.

Lemma endpoints_urls_distinct_witness :
  "https://get.jenkins.io/redhat/jenkins-2.401-1.1.noarch.rpm"
  <> "https://get.jenkins.io/opensuse/jenkins-2.401-1.2.noarch.rpm".
Proof.
  apply (endpoints_urls_distinct "get.jenkins.io" (Some "2.401") "2.390.1"
           "redhat" "opensuse"); [discriminate | reflexivity..].
Defined.


(** ** The stand-alone run *)

(** The items of a dictionary literal with different keys, taken in the
    order of the literal, are the literal. *)
Lemma items_of_literal (l : list (string * string)) :
  List.NoDup (map fst l) ->
  omap (fun k => option_map (fun url => (k, url))
                   ((list_to_map l : gmap string string) !! k)) (map fst l) = l.
Proof.
  induction l as [|[k u] r IH]; [reflexivity|].
  intros N. apply List.NoDup_cons_iff in N as [Nk Nr].
  cbn [map fst omap list_omap list_to_map foldr uncurry].
  rewrite lookup_insert_eq. cbn [option_map]. f_equal.
  rewrite <- (IH Nr) at 2.
  clear IH. generalize (list_to_map r : gmap string string). intros m.
  assert (H : forall x, In x (map fst r) -> x <> k) by (intros x I ->; auto).
  induction (map fst r) as [|x t IHt]; [reflexivity|].
  cbn [omap list_omap].
  rewrite lookup_insert_ne by (apply not_eq_sym, H; now left).
  rewrite IHt; [reflexivity|].
  intros y I. apply H. now right.
Qed.

Lemma endpoints_items_table (hostname : string) (w : option string)
  (v : string) :
  endpoints_items (endpoints_dict hostname w v)
  = [ ("debian", "https://" ++ hostname ++ "/debian/jenkins_" ++ Py.fmt w
                 ++ "_all.deb");
      ("redhat", "https://" ++ hostname ++ "/redhat/jenkins-" ++ Py.fmt w
                 ++ "-1.1.noarch.rpm");
      ("opensuse", "https://" ++ hostname ++ "/opensuse/jenkins-" ++ Py.fmt w
                   ++ "-1.2.noarch.rpm");
      ("windows", "https://" ++ hostname ++ "/windows/" ++ Py.fmt w
                  ++ "/jenkins.msi");
      ("war", "https://" ++ hostname ++ "/war/" ++ Py.fmt w ++ "/jenkins.war");
      ("debian-stable", "https://" ++ hostname ++ "/debian-stable/jenkins_"
                        ++ v ++ "_all.deb");
      ("redhat-stable", "https://" ++ hostname ++ "/redhat-stable/jenkins-"
                        ++ v ++ "-1.1.noarch.rpm");
      ("windows-stable", "https://" ++ hostname ++ "/windows-stable/" ++ v
                         ++ "/jenkins.msi");
      ("opensuse-stable", "https://" ++ hostname
                          ++ "/opensuse-stable/jenkins-" ++ v
                          ++ "-1.2.noarch.rpm");
      ("war-stable", "https://" ++ hostname ++ "/war-stable/" ++ v
                     ++ "/jenkins.war") ].
Proof.
  unfold endpoints_items, endpoints_dict. cbv zeta.
  apply (items_of_literal
           [ ("debian", _); ("redhat", _); ("opensuse", _); ("windows", _);
             ("war", _); ("debian-stable", _); ("redhat-stable", _);
             ("windows-stable", _); ("opensuse-stable", _);
             ("war-stable", _) ]).
  cbn [map fst].
  repeat (apply List.NoDup_cons;
          [cbn [In]; intros H; repeat destruct H as [H|H];
           try discriminate H; exact H|]).
  apply List.NoDup_nil.
Qed.

Lemma endpoints_items_not_metadata (w : option string) (v : string) :
  Forall (fun item => snd item <> metadata_url)
    (endpoints_items (endpoints_dict default_hostname w v)).
Proof.
  rewrite endpoints_items_table. unfold default_hostname, metadata_url.
  repeat (apply List.Forall_cons;
          [cbn [snd]; cbv [String.append]; discriminate|]).
  apply List.Forall_nil.
Qed.

Section Main.

Variable net : nat -> string -> reply.

(** With a document at hand a lookup reads [self.root] only. *)
Lemma weekly_reads_root (s t : state) :
not_root (root s) = false -> root t = root s ->
get_latest_weekly_version net t
= (fst (get_latest_weekly_version net s), t).
Proof.
intros C R. assert (C' : not_root (root t) = false) by now rewrite R.
rewrite !weekly_after_load, (load_root_warm net s C),
  (load_root_warm net t C'), R.
destruct (root s) as [d|]; [|reflexivity].
now destruct (find "versioning/latest" d).
Qed.

Lemma stable_reads_root (s t : state) :
not_root (root s) = false -> root t = root s ->
get_latest_stable_version net t
= (fst (get_latest_stable_version net s), t).
Proof.
intros C R. assert (C' : not_root (root t) = false) by now rewrite R.
rewrite !stable_after_load, (load_root_warm net s C),
  (load_root_warm net t C'), R.
destruct (root s) as [d|]; [|reflexivity].
destruct (stable_filter _) as [l|e]; [|reflexivity].
now destruct (sort_key_reverse as_version l) as [[|x r]|e].
Qed.

Lemma weekly_cold_ok (s s1 : state) (w : option string) :
not_root (root s) = true ->
get_latest_weekly_version net s = (Ok w, s1) ->
exists c e,
  net (opens (log s)) metadata_url = Opened c (Some e)
  /\ s1 = mkState (Some e) (Urlopen metadata_url :: log s).
Proof.
intros C. rewrite weekly_after_load, (load_root_cold net s C).
destruct (net (opens (log s)) metadata_url) as [c [e|]|err].
- cbn [root]. destruct (find "versioning/latest" e); [|discriminate].
  intros H. injection H as _ <-. now exists c, e.
- discriminate.
- destruct (is_URLError err); discriminate.
Qed.

Lemma weekly_again (s s1 : state) (w : option string) :
get_latest_weekly_version net s = (Ok w, s1) ->
get_latest_weekly_version net s1 = (Ok w, s1).
Proof.
intros W. pose proof (weekly_ok_root net s s1 w W) as T.
rewrite weekly_after_load in W.
rewrite weekly_after_load, (load_root_warm net s1 T).
destruct (load_root net s) as [[[]|err] s0]; [|discriminate].
destruct (root s0) as [d|] eqn:R; [|discriminate].
destruct (find "versioning/latest" d) as [latest|] eqn:F; [|discriminate].
injection W as <- <-. now rewrite R, F.
Qed.

(** The loop of the stand-alone run over items none of which is the
  metadata URL, on a network that answers. *)
Lemma probe_loop (items : list (string * string)) :
(forall n url, url <> metadata_url -> answered (net n url)) ->
Forall (fun item => snd item <> metadata_url) items ->
forall s,
exists s',
  for_each items (report net) s = (Ok tt, s')
  /\ root s' = root s
  /\ opened_urls (log s')
     = (rev (map snd items) ++ opened_urls (log s))%list
  /\ gauges (log s') = gauges (log s)
  /\ warnings (log s') = warnings (log s)
  /\ fetches (log s') = fetches (log s).
Proof.
intros A. induction 1 as [|[package url] r N _ IH]; intros s.
- exists s. now repeat split.
- cbn [snd] in N. cbn [for_each]. unfold bind at 1. unfold report at 1.
  cbn [fst snd]. unfold bind at 1.
  destruct (is_exist_value net package url s (A _ url N))
    as (value & s1 & X & _).
  rewrite X.
  destruct (is_exist_outcome net package url s s1 _ X) as [R [O|O]].
  2:{ destruct O as (e & Q & _). discriminate Q. }
  destruct O as (x & _ & _ & L).
  set (line := if value =? 0
               then "Latest version for package " ++ package
                    ++ " not available from " ++ url
               else "Latest version for package " ++ package
                    ++ " available from " ++ url).
  assert (P : (if value =? 0
               then print ("Latest version for package " ++ package
                           ++ " not available from " ++ url)
               else print ("Latest version for package " ++ package
                           ++ " available from " ++ url)) s1
              = (Ok tt, logged (Print line) s1)).
  { unfold line. now destruct (value =? 0). }
  rewrite P.
  assert (Q : opened_urls (Print line :: log s1)
              = url :: opened_urls (log s)
              /\ gauges (Print line :: log s1) = gauges (log s)
              /\ warnings (Print line :: log s1) = warnings (log s)
              /\ fetches (Print line :: log s1) = fetches (log s)).
  { destruct L as [->|[m ->]];
      rewrite ?fetches_print, (fetches_urlopen url _ N); now repeat split. }
  destruct Q as (Q1 & Q2 & Q3 & Q4).
  destruct (IH (logged (Print line) s1)) as (s' & E & R' & U & G & W & F).
  exists s'. split; [exact E|]. cbn [logged root log] in *.
  split; [congruence|].
  rewrite U, G, W, F, Q1, Q2, Q3, Q4. cbn [map snd rev].
  rewrite <- app_assoc. now repeat split.
Qed.

End Main.

Section Main2.
Variable net : nat -> string -> reply.

(** X14. The stand-alone run, on a network where the metadata gives the two
  versions and every other URL is answered by a response or an
  [HTTPError]: it returns, having fetched the metadata once, although the
  versions are looked up twice, and having probed each of the ten URLs of
  the table once, in the order of the table; it emits no gauge and no
  warning. *)
Theorem main_probes_every_endpoint (s s1 s2 : state) (w : option string)
(v : string) :
get_latest_weekly_version net (mkState None (log s)) = (Ok w, s1) ->
get_latest_stable_version net s1 = (Ok v, s2) ->
(forall n url, url <> metadata_url -> answered (net n url)) ->
exists s',
  main net s = (Ok tt, s')
  /\ root s' = root s1
  /\ opened_urls (log s')
     = (rev (map snd (endpoints_items (endpoints_dict default_hostname w v)))
        ++ metadata_url :: opened_urls (log s))%list
  /\ map fst (endpoints_items (endpoints_dict default_hostname w v))
     = endpoint_order
  /\ fetches (log s') = S (fetches (log s))
  /\ gauges (log s') = gauges (log s)
  /\ warnings (log s') = warnings (log s).
Proof.
intros W V A.
pose proof (weekly_ok_root net _ s1 w W) as T.
pose proof (stable_warm net s1 s2 _ T V) as ->.
destruct (weekly_cold_ok net (mkState None (log s)) s1 w eq_refl W)
  as (c & e & _ & S1).
cbn [log] in S1.
set (s3 := logged (Print ("Latest stable version: " ++ v))
             (logged (Print ("Latest weekly version: " ++ Py.fmt w)) s1)).
assert (R3 : root s3 = root s1) by reflexivity.
assert (C : create_endpoints net default_hostname s3
            = (Ok (endpoints_dict default_hostname w v), s3)).
{ rewrite create_endpoints_after_weekly.
  rewrite (weekly_reads_root net s1 s3 T R3),
    (weekly_again net _ s1 w W). cbn [fst].
  rewrite (stable_reads_root net s1 s3 T R3), V. reflexivity. }
destruct (probe_loop net _ A (endpoints_items_not_metadata w v) s3)
  as (s' & E & R & U & G & Wn & F).
exists s'. split.
- unfold main, bind, set_root. rewrite W, V.
  unfold print, emit. cbn [fst snd].
  change (mkState (root (mkState (root s1)
                           (Print ("Latest weekly version: " ++ Py.fmt w)
                            :: log s1)))
            (Print ("Latest stable version: " ++ v)
             :: log (mkState (root s1)
                       (Print ("Latest weekly version: " ++ Py.fmt w)
                        :: log s1)))) with s3.
  rewrite C. exact E.
- split; [congruence|]. rewrite U, G, Wn, F.
  unfold s3. cbn [logged log]. rewrite S1. cbn [log].
  split; [reflexivity|].
  split; [now rewrite endpoints_items_table|].
  now repeat split.
Qed.

End Main2.

Lemma main_probes_every_endpoint_witness :
  exists s',
    main drifting_net fresh = (Ok tt, s')
    /\ root s' = Some sample_doc
    /\ opened_urls (log s')
       = (rev (map snd (endpoints_items
                          (endpoints_dict default_hostname (Some "2.401")
                             "2.390.1")))
          ++ [metadata_url])%list
    /\ map fst (endpoints_items
                  (endpoints_dict default_hostname (Some "2.401") "2.390.1"))
       = endpoint_order
    /\ fetches (log s') = 1%nat
    /\ gauges (log s') = []
    /\ warnings (log s') = [].
Proof.
  apply (main_probes_every_endpoint drifting_net fresh
           (mkState (Some sample_doc) [Urlopen metadata_url])
           (mkState (Some sample_doc) [Urlopen metadata_url])
           (Some "2.401") "2.390.1" eq_refl eq_refl).
  intros n url N. unfold drifting_net.
  destruct (String.eqb_spec url metadata_url) as [E|_]; [contradiction|].
  exact I.
Defined.

Section MainStops.

Variable net : nat -> string -> reply.

(** The loop on a network that answers until one URL raises another
  exception than an [HTTPError]. *)
Lemma probe_loop_stops (pre post : list (string * string))
(package url : string) (e : exn) :
(forall n u, In u (map snd pre) -> answered (net n u)) ->
(forall n, net n url = Failed e) ->
is_HTTPError e = false ->
forall s,
exists s',
  for_each (pre ++ (package, url) :: post)%list (report net) s
  = (Raise e, s')
  /\ root s' = root s
  /\ opened_urls (log s')
     = (url :: rev (map snd pre) ++ opened_urls (log s))%list
  /\ gauges (log s') = gauges (log s).
Proof.
intros A D NE. induction pre as [|[p u] r IH]; intros s.
- cbn [List.app for_each]. unfold bind at 1. unfold report at 1.
  cbn [fst snd]. unfold bind at 1.
  rewrite (is_exist_other_error net package url s e (D _) NE).
  eexists. split; [reflexivity|]. now repeat split.
- cbn [List.app for_each]. unfold bind at 1. unfold report at 1.
  cbn [fst snd]. unfold bind at 1.
  assert (Au : answered (net (opens (log s)) u)) by (apply A; now left).
  destruct (is_exist_value net p u s Au) as (value & s1 & X & _).
  rewrite X.
  destruct (is_exist_outcome net p u s s1 _ X) as [R [O|O]].
  2:{ destruct O as (e' & Q & _). discriminate Q. }
  destruct O as (x & _ & _ & L).
  set (line := if value =? 0
               then "Latest version for package " ++ p
                    ++ " not available from " ++ u
               else "Latest version for package " ++ p
                    ++ " available from " ++ u).
  assert (P : (if value =? 0
               then print ("Latest version for package " ++ p
                           ++ " not available from " ++ u)
               else print ("Latest version for package " ++ p
                           ++ " available from " ++ u)) s1
              = (Ok tt, logged (Print line) s1)).
  { unfold line. now destruct (value =? 0). }
  rewrite P.
  assert (Q : opened_urls (Print line :: log s1) = u :: opened_urls (log s)
              /\ gauges (Print line :: log s1) = gauges (log s)).
  { destruct L as [->|[m ->]]; now split. }
  destruct Q as (Q1 & Q2).
  destruct (IH (fun n u' I => A n u' (or_intror I))
               (logged (Print line) s1)) as (s' & E & R' & U & G).
  exists s'. split; [exact E|]. cbn [logged root log] in *.
  split; [congruence|]. rewrite U, G, Q1, Q2. cbn [map snd rev].
  rewrite <- app_assoc. now split.
Qed.

(** X15. The stand-alone run stops at the first endpoint whose probe raises
  another exception than an [HTTPError]: the run raises that exception,
  and the endpoints that follow in the table are not probed. *)
Theorem main_stops_at_unreachable_endpoint (s s1 s2 : state)
(w : option string) (v package url : string) (e : exn)
(pre post : list (string * string)) :
get_latest_weekly_version net (mkState None (log s)) = (Ok w, s1) ->
get_latest_stable_version net s1 = (Ok v, s2) ->
endpoints_items (endpoints_dict default_hostname w v)
= (pre ++ (package, url) :: post)%list ->
(forall n u, In u (map snd pre) -> answered (net n u)) ->
(forall n, net n url = Failed e) ->
is_HTTPError e = false ->
exists s',
  main net s = (Raise e, s')
  /\ opened_urls (log s')
     = (url :: rev (map snd pre) ++ metadata_url :: opened_urls (log s))%list
  /\ gauges (log s') = gauges (log s).
Proof.
intros W V I A D NE.
pose proof (weekly_ok_root net _ s1 w W) as T.
pose proof (stable_warm net s1 s2 _ T V) as ->.
destruct (weekly_cold_ok net (mkState None (log s)) s1 w eq_refl W)
  as (c & d & _ & S1).
cbn [log] in S1.
set (s3 := logged (Print ("Latest stable version: " ++ v))
             (logged (Print ("Latest weekly version: " ++ Py.fmt w)) s1)).
assert (R3 : root s3 = root s1) by reflexivity.
assert (C : create_endpoints net default_hostname s3
            = (Ok (endpoints_dict default_hostname w v), s3)).
{ rewrite create_endpoints_after_weekly.
  rewrite (weekly_reads_root net s1 s3 T R3),
    (weekly_again net _ s1 w W). cbn [fst].
  rewrite (stable_reads_root net s1 s3 T R3), V. reflexivity. }
destruct (probe_loop_stops pre post package url e A D NE s3)
  as (s' & E & R & U & G).
exists s'. split.
- unfold main, bind, set_root. rewrite W, V.
  unfold print, emit. cbn [fst snd].
  change (mkState (root (mkState (root s1)
                           (Print ("Latest weekly version: " ++ Py.fmt w)
                            :: log s1)))
            (Print ("Latest stable version: " ++ v)
             :: log (mkState (root s1)
                       (Print ("Latest weekly version: " ++ Py.fmt w)
                        :: log s1)))) with s3.
  rewrite C, I. exact E.
- rewrite U, G. unfold s3. cbn [logged log]. rewrite S1. cbn [log].
  now split.
Qed.

End MainStops.

Lemma main_stops_at_unreachable_endpoint_witness :
  exists s',
    main probe_down_net fresh
    = (Raise (URLError "[Errno 111] Connection refused"), s')
    /\ opened_urls (log s')
       = ["https://get.jenkins.io/debian/jenkins_2.401_all.deb"; metadata_url]
    /\ gauges (log s') = [].
Proof.
  apply (main_stops_at_unreachable_endpoint probe_down_net fresh
           (mkState (Some sample_doc) [Urlopen metadata_url])
           (mkState (Some sample_doc) [Urlopen metadata_url])
           (Some "2.401") "2.390.1" "debian"
           "https://get.jenkins.io/debian/jenkins_2.401_all.deb"
           (URLError "[Errno 111] Connection refused") []
           (tl (endpoints_items
                  (endpoints_dict default_hostname (Some "2.401") "2.390.1")))
           eq_refl eq_refl).
  - now rewrite endpoints_items_table.
  - intros n u [].
  - reflexivity.
  - reflexivity.
Defined.
